(** * Metallindex price scraper (scrape.js): the extraction pipeline

    A shallow embedding of [scrape.js]: the numeric normalizer
    [normalizeNumberString], the four extraction strategies
    ([trySelector], [tryJSONLD], [tryMeta], [tryHeuristic]) and the main
    loop that chains them and assembles the report.

    - JavaScript strings are sequences of UTF-16 code units ([list N]).
    - JavaScript numbers are IEEE-754 binary64 values, taken from the
      Standard Library's executable specification [spec_float]
      (precision 53, maximal exponent 1024).
    - The built-in functions the program calls ([trim], [toLowerCase],
      [parseFloat], [Number], the regular expression of lines 17 and 88)
      are modelled after ECMAScript; [JSON.parse] is left to the page
      model, which hands over the parsed scripts.
    - The rendered page is an external collaborator (puppeteer): it is
      modelled by what its queries answer, including the possibility
      that a query rejects.

    The file first gives the program, then the inputs and the vocabulary
    the properties are stated with, then the properties. Line numbers
    refer to [scrape.js]. *)

From Stdlib Require Import ZArith NArith List Bool String Ascii Lia.
From Stdlib Require Import Floats.SpecFloat.
Import ListNotations.

Local Open Scope N_scope.

(* ================================================================== *)
(** ** Strings as UTF-16 code units *)
(* ================================================================== *)

Module JsString.

Definition code_unit := N.
Definition jsstring := list code_unit.

(** An ASCII literal as a JavaScript string. Characters outside ASCII
    are written as explicit code units, see [EURO] and [NNBSP]. *)
Definition js (s : string) : jsstring :=
  map N_of_ascii (list_ascii_of_string s).

(** U+20AC EURO SIGN and U+202F NARROW NO-BREAK SPACE. *)
Definition EURO : code_unit := 0x20AC.
Definition NNBSP : code_unit := 0x202F.

Definition str_eqb (a b : jsstring) : bool :=
  if list_eq_dec N.eq_dec a b then true else false.

(** A string is truthy when it is not empty. *)
Definition nonempty (s : jsstring) : bool :=
  match s with [] => false | _ :: _ => true end.

(** [\d] of a regular expression without the unicode flag: [0-9]. *)
Definition is_digit (c : code_unit) : bool := (48 <=? c) && (c <=? 57).

(** [\s] of a regular expression, which is also what [trim] strips:
    ECMAScript WhiteSpace and LineTerminator. *)
Definition is_space (c : code_unit) : bool :=
  ((0x09 <=? c) && (c <=? 0x0D)) || (c =? 0x20) || (c =? 0xA0)
  || (c =? 0x1680) || ((0x2000 <=? c) && (c <=? 0x200A))
  || (c =? 0x2028) || (c =? 0x2029) || (c =? 0x202F) || (c =? 0x205F)
  || (c =? 0x3000) || (c =? 0xFEFF).

Definition DOT : code_unit := 46.
Definition COMMA : code_unit := 44.
Definition SPACE : code_unit := 32.

(** The longest prefix of [s] whose code units satisfy [p], and the rest. *)
Fixpoint span (p : code_unit -> bool) (s : jsstring) : jsstring * jsstring :=
  match s with
  | c :: r => if p c then let '(a, b) := span p r in (c :: a, b) else ([], s)
  | [] => ([], [])
  end.

Fixpoint dropWhile (p : code_unit -> bool) (s : jsstring) : jsstring :=
  match s with
  | c :: r => if p c then dropWhile p r else s
  | [] => []
  end.

(** [String.prototype.trim]. *)
Definition trim (s : jsstring) : jsstring :=
  rev (dropWhile is_space (rev (dropWhile is_space s))).

(** [s.replace(/c/g, '')] for a class of single code units. *)
Definition remove_all (p : code_unit -> bool) (s : jsstring) : jsstring :=
  filter (fun c => negb (p c)) s.

(** [s.replace(/\s+/g, ' ')]: every maximal run of white space becomes
    one space. *)
Fixpoint collapse_from (in_run : bool) (s : jsstring) : jsstring :=
  match s with
  | [] => []
  | c :: r =>
      if is_space c
      then if in_run then collapse_from true r
           else SPACE :: collapse_from true r
      else c :: collapse_from false r
  end.

Definition collapse_spaces (s : jsstring) : jsstring := collapse_from false s.

(** [s.replace(a, b)] with a string pattern of one code unit: only the
    first occurrence is replaced. *)
Fixpoint replace_first (a b : code_unit) (s : jsstring) : jsstring :=
  match s with
  | [] => []
  | c :: r => if c =? a then b :: r else c :: replace_first a b r
  end.

Fixpoint prefixb (p s : jsstring) : bool :=
  match p, s with
  | [], _ => true
  | a :: p', b :: s' => (a =? b) && prefixb p' s'
  | _ :: _, [] => false
  end.

(** [s.includes(k)]. *)
Fixpoint includes (s k : jsstring) : bool :=
  prefixb k s || match s with [] => false | _ :: r => includes r k end.

(** [String.prototype.toLowerCase], as far as it can produce an ASCII
    code unit: the letters A-Z, U+0130 (which lowers to "i" followed by
    U+0307) and U+212A KELVIN SIGN (which lowers to "k"). Every other
    code unit lowers to code units outside ASCII, which the model leaves
    in place: they cannot take part in a match of an ASCII keyword. *)
Definition lower_unit (c : code_unit) : jsstring :=
  if (65 <=? c) && (c <=? 90) then [c + 32]
  else if c =? 0x130 then [105; 0x307]
  else if c =? 0x212A then [107]
  else [c].

Definition toLowerCase (s : jsstring) : jsstring := flat_map lower_unit s.

End JsString.
Import JsString.

(* ================================================================== *)
(** ** Numbers: IEEE-754 binary64 *)
(* ================================================================== *)

Module JsNumber.

Definition number := spec_float.

Definition prec : Z := 53.
Definition emax : Z := 1024.

Definition NaN : number := S754_nan.
Definition Infinity : number := S754_infinity false.

(** The Number value of the decimal [m * 10^e10] with sign [neg]:
    the binary64 value nearest to it, ties to even. *)
Definition decimal (neg : bool) (m : Z) (e10 : Z) : number :=
  match m with
  | Zpos p =>
      match e10 with
      | Zneg _ =>
          SFdiv prec emax (S754_finite neg p 0)
                (S754_finite false (Z.to_pos (10 ^ (- e10))) 0)
      | _ => binary_round prec emax neg (Z.to_pos (m * 10 ^ e10)) 0
      end
  | _ => S754_zero neg
  end.

(** The Number value of a non-negative integer. *)
Definition of_Z (m : Z) : number := decimal false m 0.

(** [Number.isFinite]. *)
Definition isFinite (x : number) : bool :=
  match x with
  | S754_zero _ | S754_finite _ _ _ => true
  | S754_infinity _ | S754_nan => false
  end.

(** A number is falsy when it is [+0], [-0] or [NaN]. *)
Definition truthy (x : number) : bool :=
  match x with
  | S754_zero _ | S754_nan => false
  | _ => true
  end.

(** The value of a run of digits in a radix up to 16. *)
Definition digit_val (c : code_unit) : Z :=
  if is_digit c then Z.of_N c - 48
  else if (97 <=? c)%N then Z.of_N c - 87
  else Z.of_N c - 55.

Definition digits_val (radix : Z) (ds : jsstring) : Z :=
  fold_left (fun acc c => acc * radix + digit_val c)%Z ds 0%Z.

Definition is_sign (c : code_unit) : bool := (c =? 43) || (c =? 45).
Definition is_e (c : code_unit) : bool := (c =? 101) || (c =? 69).

(** An optional sign: whether it is a minus, and the rest. *)
Definition read_sign (s : jsstring) : bool * jsstring :=
  match s with
  | c :: r => if is_sign c then (c =? 45, r) else (false, s)
  | [] => (false, s)
  end.

(** The longest prefix of [s] that is a StrUnsignedDecimalLiteral other
    than [Infinity]: digits, an optional fraction, an optional exponent.
    Returns the decimal mantissa, the decimal exponent and the rest. *)
Definition read_decimal (s : jsstring) : option (Z * Z * jsstring) :=
  let '(ip, r1) := span is_digit s in
  let '(fp, r2) :=
    match r1 with
    | c :: r => if c =? DOT then span is_digit r else ([], r1)
    | [] => ([], r1)
    end in
  match ip ++ fp with
  | [] => None
  | ds =>
      let '(e, r3) :=
        match r2 with
        | c :: r =>
            if is_e c then
              let '(neg, r') := read_sign r in
              let '(ed, r'') := span is_digit r' in
              match ed with
              | [] => (0%Z, r2)
              | _ => ((if neg then - digits_val 10 ed else digits_val 10 ed)%Z, r'')
              end
            else (0%Z, r2)
        | [] => (0%Z, r2)
        end in
      Some (digits_val 10 ds, (e - Z.of_nat (List.length fp))%Z, r3)
  end.

Definition INFINITY_NAME : jsstring := js "Infinity".

(** A StrDecimalLiteral at the head of [s]: its value and the rest. *)
Definition read_number (s : jsstring) : option (number * jsstring) :=
  let '(neg, r) := read_sign s in
  if prefixb INFINITY_NAME r
  then Some (S754_infinity neg, skipn (List.length INFINITY_NAME) r)
  else match read_decimal r with
       | Some (m, e, r') => Some (decimal neg m e, r')
       | None => None
       end.

(** [parseFloat]: leading white space is skipped, the longest prefix
    that is a decimal literal is converted, anything after it is
    ignored; [NaN] when there is no such prefix. *)
Definition parseFloat (s : jsstring) : number :=
  match read_number (dropWhile is_space s) with
  | Some (v, _) => v
  | None => NaN
  end.

End JsNumber.
Import JsNumber.

(* ================================================================== *)
(** ** The numeric pattern and the normalizer *)
(* ================================================================== *)

(** The pattern of lines 17 and 88,
    [/(\d{1,3}(?:[.\s]\d{3})*(?:[\,\.]\d+)?)/].
    Everything after the leading [\d{1,3}] is optional, so the greedy
    choice at each step is the one the backtracking matcher returns. *)
Module NumberPattern.

(** [\d{1,3}]: up to [n] digits, as many as there are. *)
Fixpoint leading_digits (n : nat) (s : jsstring) : jsstring * jsstring :=
  match n, s with
  | S n', c :: r =>
      if is_digit c
      then let '(a, b) := leading_digits n' r in (c :: a, b)
      else ([], s)
  | _, _ => ([], s)
  end.

Definition is_group_sep (c : code_unit) : bool := (c =? DOT) || is_space c.
Definition is_decimal_sep (c : code_unit) : bool := (c =? COMMA) || (c =? DOT).

(** [(?:[.\s]\d{3})*]: thousands groups, as many as there are. *)
Fixpoint groups (s : jsstring) : jsstring * jsstring :=
  match s with
  | c :: d1 :: d2 :: d3 :: r =>
      if is_group_sep c && is_digit d1 && is_digit d2 && is_digit d3
      then let '(a, b) := groups r in (c :: d1 :: d2 :: d3 :: a, b)
      else ([], s)
  | _ => ([], s)
  end.

(** [(?:[\,\.]\d+)?]: a decimal separator and at least one digit. *)
Definition decimals (s : jsstring) : jsstring * jsstring :=
  match s with
  | c :: r =>
      if is_decimal_sep c
      then match span is_digit r with
           | ([], _) => ([], s)
           | (ds, r') => (c :: ds, r')
           end
      else ([], s)
  | [] => ([], s)
  end.

(** The match that starts at the head of [s], if there is one. *)
Definition match_here (s : jsstring) : option jsstring :=
  match leading_digits 3 s with
  | ([], _) => None
  | (ds, r1) =>
      let '(gs, r2) := groups r1 in
      let '(fs, _) := decimals r2 in
      Some (ds ++ gs ++ fs)
  end.

(** [s.match(re)]: the leftmost match; [m[0]] and [m[1]] are the same
    text, the one group spans the whole pattern. *)
Fixpoint first_match (s : jsstring) : option jsstring :=
  match match_here s with
  | Some m => Some m
  | None => match s with
            | [] => None
            | _ :: r => first_match r
            end
  end.

End NumberPattern.

(** [normalizeNumberString(s)], lines 12-24. The argument is [None] for
    [null] (or any value that is not a string). *)
Definition normalizeNumberString (s : option jsstring) : option number :=
  match s with
  | None => None
  | Some [] => None
  | Some s =>
      let s := trim (collapse_spaces (remove_all (N.eqb NNBSP) s)) in
      match NumberPattern.first_match s with
      | None => None
      | Some m =>
          let num := m in
          let num :=
            replace_first COMMA DOT
              (remove_all (N.eqb DOT) (remove_all is_space num)) in
          let v := parseFloat num in
          if isFinite v then Some v else None
      end
  end.

(* ================================================================== *)
(** ** JSON values and the coercions applied to them *)
(* ================================================================== *)

Module Json.

Set Warnings "-register-all".

(** What [JSON.parse] returns. The members of an object are its own
    properties, in source order. *)
Inductive json : Type :=
| JNull
| JBool (b : bool)
| JNum (x : number)
| JStr (s : jsstring)
| JArr (items : list json)
| JObj (members : list (jsstring * json)).

(** The value of an expression: [None] is [undefined]. *)
Definition value := option json.

(** ToBoolean. *)
Definition truthy (v : value) : bool :=
  match v with
  | None | Some JNull => false
  | Some (JBool b) => b
  | Some (JNum x) => JsNumber.truthy x
  | Some (JStr s) => nonempty s
  | Some (JArr _) | Some (JObj _) => true
  end.

(** [a || b] and [a && b] on values. *)
Definition or_else (a b : value) : value := if truthy a then a else b.
Definition and_then (a b : value) : value := if truthy a then b else a.

Fixpoint lookup (k : jsstring) (ms : list (jsstring * json)) : value :=
  match ms with
  | [] => None
  | (k', v) :: r => if str_eqb k k' then Some v else lookup k r
  end.

(** [v.k] for the property names the program reads ([offers], [price],
    [priceSpecification]): only an object can have them. The program
    guards every access, so [v] is never [null] or [undefined] here. *)
Definition get (v : value) (k : jsstring) : value :=
  match v with
  | Some (JObj ms) => lookup k ms
  | _ => None
  end.

(** [Array.isArray(v)] and [v[0]]. *)
Definition isArray (v : value) : bool :=
  match v with Some (JArr _) => true | _ => false end.

Definition first (v : value) : value :=
  match v with Some (JArr (x :: _)) => Some x | _ => None end.

Definition is_hex_digit (c : code_unit) : bool :=
  is_digit c || ((97 <=? c) && (c <=? 102)) || ((65 <=? c) && (c <=? 70)).
Definition is_octal_digit (c : code_unit) : bool := (48 <=? c) && (c <=? 55).
Definition is_binary_digit (c : code_unit) : bool := (c =? 48) || (c =? 49).

(** A NonDecimalIntegerLiteral: [0x], [0o] or [0b] and digits. *)
Definition read_radix (s : jsstring) : option number :=
  match s with
  | 48 :: p :: (_ :: _) as ds =>
      let lit radix ok :=
        if forallb ok ds then Some (of_Z (digits_val radix ds)) else None in
      if (p =? 120) || (p =? 88) then lit 16%Z is_hex_digit
      else if (p =? 111) || (p =? 79) then lit 8%Z is_octal_digit
      else if (p =? 98) || (p =? 66) then lit 2%Z is_binary_digit
      else None
  | _ => None
  end.

(** StringToNumber: the whole string, white space trimmed, must be a
    numeric literal; the empty string is [+0]. *)
Definition StringToNumber (s : jsstring) : number :=
  match trim s with
  | [] => S754_zero false
  | t =>
      match read_radix t with
      | Some v => v
      | None =>
          match read_number t with
          | Some (v, []) => v
          | _ => NaN
          end
      end
  end.

Definition TO_STRING : jsstring := js "toString".

(** Converting a value of [JSON.parse] to a primitive throws a
    TypeError exactly when it meets an object with an own property
    [toString]: that property is not callable, and [valueOf] returns
    the object itself. An array is converted by joining its elements,
    so it throws when one of them does. *)
Fixpoint throws (v : json) : bool :=
  match v with
  | JObj ms => match lookup TO_STRING ms with Some _ => true | None => false end
  | JArr l => existsb throws l
  | _ => false
  end.

(** [Number(v)] when the conversion does not throw.
    An array is first turned into the string that joins its elements
    with commas: the empty string for no element, the string of the one
    element for one ([null] gives the empty string, a number prints
    back to itself, with [-0] printed as "0"), and a string with a
    comma, which is no number, for two or more. An object prints as
    "[object Object]". *)
Fixpoint to_number (v : json) : number :=
  match v with
  | JNull => S754_zero false
  | JBool b => if b then of_Z 1 else S754_zero false
  | JNum x => x
  | JStr s => StringToNumber s
  | JObj _ => NaN
  | JArr [] => S754_zero false
  | JArr [x] =>
      match x with
      | JNull => S754_zero false
      | JBool _ => NaN
      | JNum (S754_zero _) => S754_zero false
      | JNum y => y
      | JStr s => StringToNumber s
      | JArr _ => to_number x
      | JObj _ => NaN
      end
  | JArr (_ :: _ :: _) => NaN
  end.

(** [Number(v)] for a value that came out of [JSON.parse]: [None] when
    it throws. *)
Definition Number (v : json) : option number :=
  if throws v then None else Some (to_number v).

End Json.
Import Json.

(* ================================================================== *)
(** ** The rendered page *)
(* ================================================================== *)

(** A call into the page either resolves with a value or rejects. *)
Inductive outcome (A : Type) : Type :=
| Resolves (a : A)
| Rejects.
Arguments Resolves {A} a.
Arguments Rejects {A}.

(** An element, by the two properties the program reads; [None] when
    the property is [undefined] or [null]. *)
Record Element : Type := {
  innerText : option jsstring;
  textContent : option jsstring
}.

(** A [meta] element, by [getAttribute] of the three attributes read;
    [None] when the attribute is absent. *)
Record MetaElement : Type := {
  attr_name : option jsstring;
  attr_property : option jsstring;
  attr_content : option jsstring
}.

(** The page after navigation, by what each query of the program
    answers:
    - [query sel]: [waitForSelector(sel)] followed by [$eval(sel, ...)]
      resolve with the first element matching [sel], or one of them
      rejects (time-out, invalid selector, no element);
    - [ld_json]: for every [script[type="application/ld+json"]], in
      document order, what [JSON.parse] makes of its [innerText],
      [None] when [JSON.parse] throws;
    - [metas]: every [meta] element, in document order;
    - [body]: [document.querySelectorAll('body *')], in document order. *)
Record Page : Type := {
  query : jsstring -> outcome Element;
  ld_json : outcome (list (option json));
  metas : outcome (list MetaElement);
  body : outcome (list Element)
}.

(** [a || b || ''] on optional strings. *)
Definition text_or (a b : option jsstring) : jsstring :=
  match a with
  | Some ((_ :: _) as s) => s
  | _ => match b with
         | Some ((_ :: _) as s) => s
         | _ => []
         end
  end.

(* ================================================================== *)
(** ** The four extraction strategies *)
(* ================================================================== *)

(** [trySelector(page, selector)], lines 26-35. *)
Definition trySelector (page : Page) (selector : jsstring) : option number :=
  match query page selector with
  | Rejects => None
  | Resolves el =>
      let txt := trim (text_or (innerText el) (textContent el)) in
      normalizeNumberString (Some txt)
  end.

Definition OFFERS : jsstring := js "offers".
Definition PRICE : jsstring := js "price".
Definition PRICE_SPECIFICATION : jsstring := js "priceSpecification".

(** How the body of a loop ends: it returns a value, it falls through
    to the next round, or it throws. *)
Inductive completion : Type :=
| Return (v : number)
| Continue
| Throw.

(** Lines 48-51, for the offer chosen at line 47. *)
Definition offer_price (offer : value) : completion :=
  if truthy offer
     && (truthy (get offer PRICE) || truthy (get offer PRICE_SPECIFICATION))
  then
    let price :=
      or_else (get offer PRICE)
              (and_then (get offer PRICE_SPECIFICATION)
                        (get (get offer PRICE_SPECIFICATION) PRICE)) in
    match price with
    | Some p =>
        if truthy price
        then match Number p with
             | Some v => Return v
             | None => Throw
             end
        else Continue
    | None => Continue
    end
  else Continue.

(** The body of the loop over the items of one script, lines 46-52. *)
Definition item_price (item : json) : completion :=
  let item := Some item in
  if truthy item && truthy (get item OFFERS) then
    let offer :=
      if isArray (get item OFFERS) then first (get item OFFERS)
      else get item OFFERS in
    offer_price offer
  else Continue.

(** [for (const item of arr)], lines 45-53. *)
Fixpoint scan_items (arr : list json) : completion :=
  match arr with
  | [] => Continue
  | item :: rest =>
      match item_price item with
      | Continue => scan_items rest
      | done => done
      end
  end.

(** [for (const txt of data)], lines 40-57: a script that does not
    parse is skipped, and so is the rest of a script in which the
    coercion throws (the [catch] of line 54). *)
Fixpoint scan_scripts (data : list (option json)) : option number :=
  match data with
  | [] => None
  | None :: rest => scan_scripts rest
  | Some parsed :: rest =>
      let arr := match parsed with JArr l => l | _ => [parsed] end in
      match scan_items arr with
      | Return v => Some v
      | Continue | Throw => scan_scripts rest
      end
  end.

(** [tryJSONLD(page)], lines 37-62. *)
Definition tryJSONLD (page : Page) : option number :=
  match ld_json page with
  | Rejects => None
  | Resolves data => scan_scripts data
  end.

(** The object built for a [meta] element at line 66. *)
Definition meta_name (m : MetaElement) : option jsstring :=
  match attr_name m with
  | Some (_ :: _) => attr_name m
  | _ => attr_property m
  end.

Definition META_KEYS : list jsstring :=
  [js "price"; js "og:price"; js "product:price:amount"].

(** [for (const m of metas)], lines 67-75. *)
Fixpoint scan_metas (ms : list MetaElement) : option number :=
  match ms with
  | [] => None
  | m :: rest =>
      match meta_name m, attr_content m with
      | Some ((_ :: _) as name), Some ((_ :: _) as content) =>
          let low := toLowerCase name in
          if existsb (includes low) META_KEYS then
            match normalizeNumberString (Some content) with
            | Some v => Some v
            | None => scan_metas rest
            end
          else scan_metas rest
      | _, _ => scan_metas rest
      end
  end.

(** [tryMeta(page)], lines 64-80. *)
Definition tryMeta (page : Page) : option number :=
  match metas page with
  | Rejects => None
  | Resolves ms => scan_metas ms
  end.

Module Heuristic.

Definition keywords : list jsstring :=
  [js "ankauf"; js "ankaufspreis"; js "ankaufs"; js "kaufpreis";
   js "ankaufswert"].

(** [findNumberInText(text)], lines 87-91. *)
Definition findNumberInText (text : jsstring) : option jsstring :=
  NumberPattern.first_match text.

(** [(el.innerText || '').trim()], lines 95 and 107. *)
Definition element_text (el : Element) : jsstring :=
  trim (text_or (innerText el) None).

(** [if (num) return num]: a string is returned when it is not empty. *)
Definition returned (num : option jsstring) : option jsstring :=
  match num with
  | Some (_ :: _) => num
  | _ => None
  end.

(** [for (const kw of keywords)], lines 98-103. *)
Fixpoint keyword_loop (kws : list jsstring) (low t : jsstring)
  : option jsstring :=
  match kws with
  | [] => None
  | kw :: rest =>
      if includes low kw then
        match returned (findNumberInText t) with
        | Some num => Some num
        | None => keyword_loop rest low t
        end
      else keyword_loop rest low t
  end.

(** The body of the first loop over the elements, lines 95-103. *)
Definition keyword_hit (el : Element) : option jsstring :=
  match element_text el with
  | [] => None
  | t => keyword_loop keywords (toLowerCase t) t
  end.

(** The body of the second loop, lines 107-112. *)
Definition euro_hit (el : Element) : option jsstring :=
  match element_text el with
  | [] => None
  | t => if includes t [EURO] then returned (findNumberInText t) else None
  end.

(** [for (const el of els)] with a body that may return. *)
Fixpoint first_hit (hit : Element -> option jsstring) (els : list Element)
  : option jsstring :=
  match els with
  | [] => None
  | el :: rest =>
      match hit el with
      | Some num => Some num
      | None => first_hit hit rest
      end
  end.

(** The function evaluated in the page, lines 85-115. *)
Definition evaluate (els : list Element) : option jsstring :=
  match first_hit keyword_hit els with
  | Some num => Some num
  | None => first_hit euro_hit els
  end.

End Heuristic.

(** [tryHeuristic(page)], lines 82-122. *)
Definition tryHeuristic (page : Page) : option number :=
  match body page with
  | Rejects => None
  | Resolves els =>
      match Heuristic.evaluate els with
      | Some ((_ :: _) as found) => normalizeNumberString (Some found)
      | _ => None
      end
  end.

(* ================================================================== *)
(** ** The main loop *)
(* ================================================================== *)

(** One entry of [coins.json]. [None] is an absent property. *)
Record Coin : Type := {
  id : jsstring;
  name : jsstring;
  url : jsstring;
  metal : option jsstring;
  fineInGrams : option number;
  selector : option jsstring
}.

(** What a rejected [page.goto] throws: its [message] property and the
    string the value itself converts to. *)
Record JsError : Type := {
  message : option jsstring;
  to_string : jsstring
}.

(** [err.message || err], appended to a string. *)
Definition error_detail (err : JsError) : jsstring :=
  match message err with
  | Some ((_ :: _) as m) => m
  | _ => to_string err
  end.

(** One navigation: whether [page.goto] rejected, and the page the
    strategies then see (after a failure, whatever the tab shows). *)
Record Visit : Type := {
  goto : option JsError;
  page : Page
}.

(** The browser: what the [n]-th navigation of the run, to a given
    URL, leads to. *)
Definition Browser := nat -> jsstring -> Visit.

Inductive Strategy : Type := Selector | JsonLd | Meta | HeuristicSearch.

(** The variables of one iteration, [price] and [notes], together with
    [calls], which is not a variable of the program: it logs each call
    of a strategy function with what the call returned, in call order. *)
Record Iteration : Type := {
  price : option number;
  notes : list jsstring;
  calls : list (Strategy * option number)
}.

(** [notes.push(n)]. *)
Definition push (n : jsstring) (it : Iteration) : Iteration :=
  {| price := price it; notes := notes it ++ [n]; calls := calls it |}.

(** [price = p]. *)
Definition set_price (p : number) (it : Iteration) : Iteration :=
  {| price := Some p; notes := notes it; calls := calls it |}.

Definition called (s : Strategy) (p : option number) (it : Iteration)
  : Iteration :=
  {| price := price it; notes := notes it; calls := calls it ++ [(s, p)] |}.

(** [price === null]. *)
Definition price_is_null (it : Iteration) : bool :=
  match price it with None => true | Some _ => false end.

(** [coin.selector && coin.selector.trim()] as a condition. *)
Definition selector_configured (coin : Coin) : bool :=
  match selector coin with
  | Some ((_ :: _) as s) => nonempty (trim s)
  | _ => false
  end.

Definition selector_text (coin : Coin) : jsstring :=
  match selector coin with Some s => s | None => [] end.

(** Lines 146-150. *)
Definition navigate (v : Visit) (it : Iteration) : Iteration :=
  match goto v with
  | None => it
  | Some err => push (js "page-load-failed: " ++ error_detail err) it
  end.

(** Lines 152-161. *)
Definition step_selector (pg : Page) (coin : Coin) (it : Iteration)
  : Iteration :=
  if selector_configured coin then
    let p := trySelector pg (selector_text coin) in
    let it := called Selector p it in
    match p with
    | Some v => push (js "selector") (set_price v it)
    | None => push (js "selector-not-found") it
    end
  else it.

(** Lines 163-170. *)
Definition step_jsonld (pg : Page) (it : Iteration) : Iteration :=
  if price_is_null it then
    let p := tryJSONLD pg in
    let it := called JsonLd p it in
    match p with
    | Some v => push (js "json-ld") (set_price v it)
    | None => it
    end
  else it.

(** Lines 172-179. *)
Definition step_meta (pg : Page) (it : Iteration) : Iteration :=
  if price_is_null it then
    let p := tryMeta pg in
    let it := called Meta p it in
    match p with
    | Some v => push (js "meta") (set_price v it)
    | None => it
    end
  else it.

(** Lines 181-190. *)
Definition step_heuristic (pg : Page) (it : Iteration) : Iteration :=
  if price_is_null it then
    let p := tryHeuristic pg in
    let it := called HeuristicSearch p it in
    match p with
    | Some v => push (js "heuristic") (set_price v it)
    | None => push (js "not-found") it
    end
  else it.

(** Lines 143-144. *)
Definition fresh : Iteration := {| price := None; notes := []; calls := [] |}.

(** The strategy chain, lines 152-190. *)
Definition chain (pg : Page) (coin : Coin) (it : Iteration) : Iteration :=
  step_heuristic pg (step_meta pg (step_jsonld pg (step_selector pg coin it))).

(** One iteration up to the delay, lines 143-190. *)
Definition iteration (v : Visit) (coin : Coin) : Iteration :=
  chain (page v) coin (navigate v fresh).

(** The object pushed on [results], lines 195-204. *)
Record ScrapeResult : Type := {
  r_id : jsstring;
  r_name : jsstring;
  r_url : jsstring;
  r_metal : option jsstring;
  r_fineInGrams : option number;
  price_eur : option number;
  ok : bool;
  r_notes : list jsstring
}.

(** [coin.metal || null] and [coin.fineInGrams || null]. *)
Definition or_null_string (s : option jsstring) : option jsstring :=
  match s with Some (_ :: _) => s | _ => None end.

Definition or_null_number (x : option number) : option number :=
  match x with
  | Some y => if JsNumber.truthy y then x else None
  | None => None
  end.

Definition result_of (coin : Coin) (it : Iteration) : ScrapeResult :=
  {| r_id := id coin;
     r_name := name coin;
     r_url := url coin;
     r_metal := or_null_string (metal coin);
     r_fineInGrams := or_null_number (fineInGrams coin);
     price_eur := price it;
     ok := negb (price_is_null it);
     r_notes := notes it |}.

(** The whole body of the loop for one coin, lines 142-204; the delay
    of line 193 has no effect on the values. *)
Definition scrape (v : Visit) (coin : Coin) : ScrapeResult :=
  result_of coin (iteration v coin).

(** [for (const coin of coins)], lines 141-205: [n] counts the
    navigations made so far, [results] is the array being filled. *)
Fixpoint main_loop (browser : Browser) (n : nat) (coins : list Coin)
  (results : list ScrapeResult) : list ScrapeResult :=
  match coins with
  | [] => results
  | coin :: rest =>
      main_loop browser (S n) rest
        (results ++ [scrape (browser n (url coin)) coin])
  end.

Record Report : Type := {
  source : jsstring;
  generated_at : jsstring;
  items : list ScrapeResult
}.

(** Lines 139-213, for the parsed [coins.json]; [now] is what
    [(new Date()).toISOString()] returns. *)
Definition main (browser : Browser) (now : jsstring) (coins : list Coin)
  : Report :=
  {| source := js "philoro.at";
     generated_at := now;
     items := main_loop browser 0 coins [] |}.

(* ================================================================== *)
(** ** Concrete inputs used by the examples *)
(* ================================================================== *)

Module Fixtures.

(** The binary64 values of the literals [1234.56], [99.99], [1050],
    [123], [123456] and [5]: 0x1.34a3d70a3d70ap+10, 0x1.8ff5c28f5c28fp+6,
    0x1.068p+10, 0x1.ecp+6, 0x1.e24p+16 and 0x1.4p+2. *)
Definition n1234_56 : number := S754_finite false 0x134A3D70A3D70A (-42).
Definition n99_99 : number := S754_finite false 0x18FF5C28F5C28F (-46).
Definition n1050 : number := S754_finite false 0x10680000000000 (-42).
Definition n123 : number := S754_finite false 0x1EC00000000000 (-46).
Definition n123456 : number := S754_finite false 0x1E240000000000 (-36).
Definition n5 : number := S754_finite false 0x14000000000000 (-50).

Definition text_element (t : jsstring) : Element :=
  {| innerText := Some t; textContent := Some t |}.

(** A page on which no selector matches and the other queries resolve
    with nothing. *)
Definition blank_page : Page :=
  {| query := fun _ => Rejects;
     ld_json := Resolves [];
     metas := Resolves [];
     body := Resolves [] |}.

Definition with_body (els : list Element) (pg : Page) : Page :=
  {| query := query pg; ld_json := ld_json pg; metas := metas pg;
     body := Resolves els |}.

Definition with_ld_json (data : list (option json)) (pg : Page) : Page :=
  {| query := query pg; ld_json := Resolves data; metas := metas pg;
     body := body pg |}.

Definition with_element (sel : jsstring) (el : Element) (pg : Page) : Page :=
  {| query := fun s => if str_eqb s sel then Resolves el else query pg s;
     ld_json := ld_json pg; metas := metas pg; body := body pg |}.

Definition ANKAUFSPREIS : jsstring := js "Ankaufspreis: 1.050,00 " ++ [EURO].

(** A coin without a selector, and one with the selector [.price]. *)
Definition coin_plain : Coin :=
  {| id := js "au-1oz"; name := js "Philharmoniker 1 oz";
     url := js "https://philoro.at/au-1oz";
     metal := Some (js "gold"); fineInGrams := None; selector := None |}.

Definition coin_selector : Coin :=
  {| id := js "ag-1oz"; name := js "Maple Leaf 1 oz";
     url := js "https://philoro.at/ag-1oz";
     metal := Some (js "silver"); fineInGrams := None;
     selector := Some (js ".price") |}.

Definition timeout : JsError :=
  {| message := Some (js "Navigation timeout of 30000 ms exceeded");
     to_string := js "TimeoutError: Navigation timeout of 30000 ms exceeded" |}.

Definition loaded (pg : Page) : Visit := {| goto := None; page := pg |}.
Definition failed (pg : Page) : Visit := {| goto := Some timeout; page := pg |}.

(** Structured data whose one offer has the given price. *)
Definition offer_with_price (p : json) : json :=
  JObj [(OFFERS, JObj [(PRICE, p)])].

(** A batch of two coins whose first navigation times out. *)
Definition flaky_browser : Browser :=
  fun n _ =>
    match n with
    | O => failed blank_page
    | _ => loaded (with_body [text_element ANKAUFSPREIS] blank_page)
    end.

(** A page on which the selector [.price] matches an element with the
    text "1.234,56" and whose structured data offers the price 5. *)
Definition selector_page : Page :=
  with_element (js ".price") (text_element (js "1.234,56"))
    (with_ld_json [Some (offer_with_price (JNum n5))] blank_page).

(** A body whose first element mentions "Ankauf" with another number:
    the first pass returns that number. *)
Definition two_offers_page : Page :=
  with_body [text_element (js "Ankauf ab 5 g");
             text_element ANKAUFSPREIS] blank_page.

End Fixtures.
Import Fixtures.

(* ================================================================== *)
(** ** Vocabulary of the properties *)
(* ================================================================== *)

(** The texts the pattern of lines 17 and 88 describes: one to three
    digits, groups of a separator and three digits, and possibly a
    decimal separator with digits. *)
Inductive thousands : jsstring -> Prop :=
| thousands_nil : thousands []
| thousands_cons c d1 d2 d3 r :
    NumberPattern.is_group_sep c = true ->
    is_digit d1 = true -> is_digit d2 = true -> is_digit d3 = true ->
    thousands r ->
    thousands (c :: d1 :: d2 :: d3 :: r).

Definition fraction (f : jsstring) : Prop :=
  f = []
  \/ exists c ds,
       f = c :: ds /\ NumberPattern.is_decimal_sep c = true
       /\ ds <> [] /\ forallb is_digit ds = true.

Definition number_text (m : jsstring) : Prop :=
  exists ds gs fs,
    m = ds ++ gs ++ fs
    /\ ds <> [] /\ (List.length ds <= 3)%nat /\ forallb is_digit ds = true
    /\ thousands gs /\ fraction fs.

(** [x] is what the normalizer made of some text. *)
Definition normalized (x : number) : Prop :=
  exists txt : jsstring, normalizeNumberString (Some txt) = Some x.

(** The price fields of a structured-data document, in the words of
    the specification: for each item of each script that parses, the
    first offer's [price] and its [priceSpecification.price]. *)
Definition first_offer (item : json) : value :=
  let offers := get (Some item) OFFERS in
  if isArray offers then first offers else offers.

Definition to_list (v : value) : list json :=
  match v with Some p => [p] | None => [] end.

Definition price_fields (item : json) : list json :=
  to_list (get (first_offer item) PRICE)
  ++ to_list (get (get (first_offer item) PRICE_SPECIFICATION) PRICE).

Definition script_items (script : option json) : list json :=
  match script with
  | None => []
  | Some (JArr l) => l
  | Some v => [v]
  end.

Definition document_prices (data : list (option json)) : list json :=
  flat_map price_fields (flat_map script_items data).

(** [x] is the direct coercion of a truthy price field of [data]. *)
Definition coerced_from (data : list (option json)) (x : number) : Prop :=
  exists p : json,
    In p (document_prices data) /\ truthy (Some p) = true
    /\ Number p = Some x.

(** What a call of a strategy function on this page returns. *)
Definition attempt (pg : Page) (coin : Coin) (s : Strategy) : option number :=
  match s with
  | Selector => trySelector pg (selector_text coin)
  | JsonLd => tryJSONLD pg
  | Meta => tryMeta pg
  | HeuristicSearch => tryHeuristic pg
  end.

(** The fixed order of the chain for a coin. *)
Definition planned (coin : Coin) : list Strategy :=
  (if selector_configured coin then [Selector] else [])
  ++ [JsonLd; Meta; HeuristicSearch].

(** The calls up to and including the first one that finds a price. *)
Fixpoint until_found (l : list (Strategy * option number))
  : list (Strategy * option number) :=
  match l with
  | [] => []
  | (s, Some v) :: _ => [(s, Some v)]
  | (s, None) :: rest => (s, None) :: until_found rest
  end.

(** The note the loop pushes after a call, if it pushes one. *)
Definition note_of (c : Strategy * option number) : list jsstring :=
  match c with
  | (Selector, Some _) => [js "selector"]
  | (Selector, None) => [js "selector-not-found"]
  | (JsonLd, Some _) => [js "json-ld"]
  | (JsonLd, None) => []
  | (Meta, Some _) => [js "meta"]
  | (Meta, None) => []
  | (HeuristicSearch, Some _) => [js "heuristic"]
  | (HeuristicSearch, None) => [js "not-found"]
  end.

(** The price a run of calls leaves in [price]. *)
Fixpoint found (l : list (Strategy * option number)) : option number :=
  match l with
  | [] => None
  | (_, Some v) :: _ => Some v
  | (_, None) :: rest => found rest
  end.

(** The notes of a failed navigation. *)
Definition navigation_notes (v : Visit) : list jsstring :=
  match goto v with
  | None => []
  | Some err => [js "page-load-failed: " ++ error_detail err]
  end.

(** The results of the coins from the [n]-th navigation on. *)
Fixpoint visits (browser : Browser) (n : nat) (coins : list Coin)
  : list ScrapeResult :=
  match coins with
  | [] => []
  | coin :: rest => scrape (browser n (url coin)) coin :: visits browser (S n) rest
  end.

Definition is_some {A : Type} (o : option A) : bool :=
  match o with Some _ => true | None => false end.

(** The outcome tags a strategy can leave, as the specification lists
    them; for a failed Structured-Data or Metadata attempt it names no
    tag, so any note counts. *)
Definition outcome_tag (c : Strategy * option number) (n : jsstring) : Prop :=
  match c with
  | (Selector, Some _) => n = js "selector"
  | (Selector, None) => n = js "selector-not-found"
  | (JsonLd, Some _) => n = js "json-ld"
  | (Meta, Some _) => n = js "meta"
  | (HeuristicSearch, Some _) => n = js "heuristic"
  | (HeuristicSearch, None) => n = js "not-found"
  | (JsonLd, None) | (Meta, None) => True
  end.

(** The notes hold exactly one outcome tag per call of a strategy, in
    call order (after the note of a failed navigation). *)
Definition one_tag_per_attempt (v : Visit) (coin : Coin) : Prop :=
  exists tags,
    r_notes (scrape v coin) = navigation_notes v ++ tags
    /\ Forall2 outcome_tag (calls (iteration v coin)) tags.

(** Every price of a result is finite and an output of the normalizer. *)
Definition price_is_normalized (r : ScrapeResult) : Prop :=
  forall x, price_eur r = Some x -> isFinite x = true /\ normalized x.

(** The fallback property as the specification words it: no selector,
    no structured data, no metadata, and some element of the body with
    the text "Ankaufspreis: 1.050,00 EUR-sign". *)
Definition fallback_scenario (v : Visit) (coin : Coin) : Prop :=
  selector_configured coin = false
  /\ ld_json (page v) = Resolves []
  /\ metas (page v) = Resolves []
  /\ exists els el,
       body (page v) = Resolves els /\ In el els
       /\ innerText el = Some ANKAUFSPREIS.

Definition fallback_result (r : ScrapeResult) : Prop :=
  price_eur r = Some n1050 /\ ok r = true
  /\ exists before, r_notes r = before ++ [js "heuristic"].

(** The Structured-Data strategy never returns the number zero. *)
Definition never_found_zero : Prop :=
  forall (pg : Page) (sign : bool), tryJSONLD pg <> Some (S754_zero sign).

(** The members of an object without the key [k]. *)
Definition remove_key (k : jsstring) (ms : list (jsstring * json))
  : list (jsstring * json) :=
  filter (fun kv => negb (str_eqb k (fst kv))) ms.

(** A text without a digit. *)
Definition no_digit (s : jsstring) : Prop :=
  Forall (fun c => is_digit c = false) s.

(** [trim] at the end of a text only. *)
Definition trim_end (s : jsstring) : jsstring :=
  rev (dropWhile is_space (rev s)).

(** Line 15: the text the pattern is matched against. *)
Definition cleaned (s : jsstring) : jsstring :=
  trim (collapse_spaces (remove_all (N.eqb NNBSP) s)).

(** Line 15 for what follows a code unit that stays in place. *)
Definition clean_tail (s : jsstring) : jsstring :=
  trim_end (collapse_from false (remove_all (N.eqb NNBSP) s)).

(** Line 21: the text handed to [parseFloat]. *)
Definition num_of (m : jsstring) : jsstring :=
  replace_first COMMA DOT (remove_all (N.eqb DOT) (remove_all is_space m)).

(** A finite number that is not negative. *)
Definition nonneg_finite (x : number) : bool :=
  match x with
  | S754_zero false | S754_finite false _ _ => true
  | _ => false
  end.

(** Groups of three digits, each after a dot. *)
Definition is_group (g : jsstring) : Prop :=
  List.length g = 3%nat /\ forallb is_digit g = true.

Definition dotted (groups : list jsstring) : jsstring :=
  flat_map (fun g => DOT :: g) groups.

(** What may follow the last digit of a number: nothing, or a code
    unit that is neither a digit nor the narrow no-break space that
    line 15 removes. *)
Definition ends_number (t : jsstring) : Prop :=
  match t with
  | [] => True
  | c :: _ => is_digit c = false /\ c <> NNBSP
  end.

(** The text of an element holds one of the keywords of line 86, in
    any case. *)
Definition has_keyword (el : Element) : bool :=
  existsb (includes (toLowerCase (Heuristic.element_text el)))
          Heuristic.keywords.

(** The same coin without its selector. *)
Definition without_selector (coin : Coin) : Coin :=
  {| id := id coin; name := name coin; url := url coin;
     metal := metal coin; fineInGrams := fineInGrams coin;
     selector := None |}.

(** The notes the selector step leaves when it does not end the
    chain. *)
Definition selector_notes (pg : Page) (coin : Coin) : list jsstring :=
  if selector_configured coin then
    match trySelector pg (selector_text coin) with
    | Some _ => []
    | None => [js "selector-not-found"]
    end
  else [].

Definition FINAL_TAGS : list jsstring :=
  [js "selector"; js "json-ld"; js "meta"; js "heuristic"; js "not-found"].

(** The number zero, of either sign. *)
Definition is_zero_number (p : json) : bool :=
  match p with
  | JNum (S754_zero _) => true
  | _ => false
  end.

(** The price field an item is read by: the first truthy one of its
    first offer's [price] and [priceSpecification.price]. *)
Definition chosen_price (item : json) : option json :=
  find (fun p => truthy (Some p)) (price_fields item).

(** An item with the offer [{price: 0, priceSpecification: {price: 0}}]. *)
Definition zero_priced_item : json :=
  JObj [(OFFERS,
         JObj [(PRICE, JNum (S754_zero false));
               (PRICE_SPECIFICATION, JObj [(PRICE, JNum (S754_zero false))])])].

(** The text a strategy hands to the normalizer: the trimmed text of
    the element the selector finds; the content of a [meta] element
    whose name holds "price"; the first number in the text of an
    element of the body that holds a keyword or a euro sign. The
    Structured-Data strategy hands over none. *)
Definition extracted_by (pg : Page) (coin : Coin) (s : Strategy)
  (txt : jsstring) : Prop :=
  match s with
  | Selector =>
      exists el,
        query pg (selector_text coin) = Resolves el
        /\ txt = trim (text_or (innerText el) (textContent el))
  | JsonLd => False
  | Meta =>
      exists ms m nm,
        metas pg = Resolves ms /\ In m ms
        /\ meta_name m = Some nm /\ attr_content m = Some txt
        /\ includes (toLowerCase nm) (js "price") = true
  | HeuristicSearch =>
      exists els el,
        body pg = Resolves els /\ In el els
        /\ Heuristic.findNumberInText (Heuristic.element_text el) = Some txt
        /\ (has_keyword el = true
            \/ includes (Heuristic.element_text el) [EURO] = true)
  end.

(* ================================================================== *)
(** ** Proof tools *)
(* ================================================================== *)

Arguments js : simpl never.

Ltac chain_cases v coin :=
  unfold scrape, result_of, iteration, chain, planned, navigation_notes,
    step_heuristic, step_meta, step_jsonld, step_selector, navigate, attempt;
  destruct (goto v);
  destruct (selector_configured coin);
  try destruct (trySelector (page v) (selector_text coin));
  destruct (tryJSONLD (page v));
  destruct (tryMeta (page v));
  destruct (tryHeuristic (page v));
  cbn [price_is_null price notes calls push set_price called fresh
       until_found found note_of flat_map map app negb
       price_eur ok r_notes].

(* ================================================================== *)
(** ** Strings *)
(* ================================================================== *)

Lemma str_eqb_eq a b : str_eqb a b = true <-> a = b.
Proof.
  unfold str_eqb. destruct (list_eq_dec N.eq_dec a b); split; congruence.
Qed.

(* ================================================================== *)
(** ** The numeric pattern *)
(* ================================================================== *)

Section Pattern.

Import NumberPattern.

Lemma span_spec p s :
  s = fst (span p s) ++ snd (span p s) /\ forallb p (fst (span p s)) = true.
Proof.
  induction s as [|c r [IH1 IH2]]; simpl; [auto|].
  destruct (p c) eqn:E; [|auto].
  destruct (span p r) as [a b]; simpl in *.
  rewrite E, IH2. split; [congruence | reflexivity].
Qed.

Lemma leading_digits_spec n :
  forall s,
    s = fst (leading_digits n s) ++ snd (leading_digits n s)
    /\ (List.length (fst (leading_digits n s)) <= n)%nat
    /\ forallb is_digit (fst (leading_digits n s)) = true.
Proof.
  induction n as [|n IH]; intros [|c r]; simpl; try (repeat split; lia).
  destruct (is_digit c) eqn:E; simpl; [|repeat split; lia].
  destruct (IH r) as (H1 & H2 & H3).
  destruct (leading_digits n r) as [a b]; simpl in *.
  rewrite E, H3. repeat split; [congruence | lia].
Qed.

Lemma groups_spec s :
  s = fst (groups s) ++ snd (groups s) /\ thousands (fst (groups s)).
Proof.
  remember (List.length s) as n eqn:Hn. revert s Hn.
  induction n as [n IH] using lt_wf_ind. intros s Hn.
  destruct s as [|c [|d1 [|d2 [|d3 r]]]];
    try (simpl; split; [reflexivity | constructor]).
  simpl.
  destruct (is_group_sep c && is_digit d1 && is_digit d2 && is_digit d3)
    eqn:E; [|simpl; split; [reflexivity | constructor]].
  apply andb_prop in E. destruct E as [E E3].
  apply andb_prop in E. destruct E as [E E2].
  apply andb_prop in E. destruct E as [E0 E1].
  destruct (IH (List.length r)) with (s := r) as [H1 H2];
    [subst n; simpl; lia | reflexivity |].
  destruct (groups r) as [a b]; simpl in *.
  split; [congruence | now constructor].
Qed.

Lemma decimals_spec s :
  s = fst (decimals s) ++ snd (decimals s) /\ fraction (fst (decimals s)).
Proof.
  unfold decimals, fraction.
  destruct s as [|c r]; [simpl; auto|].
  destruct (is_decimal_sep c) eqn:E; [|simpl; auto].
  destruct (span_spec is_digit r) as [H1 H2].
  destruct (span is_digit r) as [[|d ds] r']; simpl in *; [auto|].
  split; [congruence|]. right. exists c, (d :: ds).
  repeat split; [exact E | discriminate | exact H2].
Qed.

(** What the matcher returns at the head of a text is a prefix of the
    text and has the shape the pattern describes. *)
Lemma match_here_spec s m :
  match_here s = Some m -> number_text m /\ exists rest, s = m ++ rest.
Proof.
  unfold match_here, number_text.
  destruct (leading_digits_spec 3 s) as (H1 & H2 & H3).
  destruct (leading_digits 3 s) as [[|d ds] r1]; [discriminate|].
  destruct (groups_spec r1) as [G1 G2].
  destruct (groups r1) as [gs r2].
  destruct (decimals_spec r2) as [D1 D2].
  destruct (decimals r2) as [fs r3].
  simpl in *. intros H. injection H as <-.
  split.
  - exists (d :: ds), gs, fs. repeat split; auto. discriminate.
  - exists r3. rewrite H1, G1, D1. simpl. now rewrite <- !app_assoc.
Qed.

Lemma leading_digits_digit n c r :
  is_digit c = true ->
  leading_digits (S n) (c :: r)
  = (c :: fst (leading_digits n r), snd (leading_digits n r)).
Proof.
  intros E. cbn [leading_digits]. rewrite E.
  destruct (leading_digits n r); reflexivity.
Qed.

Lemma match_here_digit c r :
  is_digit c = true -> match_here (c :: r) <> None.
Proof.
  intros E. unfold match_here. rewrite (leading_digits_digit 2 c r E).
  destruct (groups _) as [gs r2]. destruct (decimals r2). discriminate.
Qed.

(** The first match starts at the first digit of the text. *)
Lemma first_match_spec s m :
  first_match s = Some m ->
  number_text m
  /\ exists before rest,
       s = before ++ m ++ rest
       /\ forallb (fun c => negb (is_digit c)) before = true.
Proof.
  induction s as [|c r IH]; cbn [first_match].
  - destruct (match_here []) eqn:E; [|discriminate].
    intros H. injection H as <-.
    destruct (match_here_spec _ _ E) as [Hn [rest Hr]].
    split; [exact Hn|]. exists [], rest. auto.
  - destruct (match_here (c :: r)) eqn:E.
    + intros H. injection H as <-.
      destruct (match_here_spec _ _ E) as [Hn [rest Hr]].
      split; [exact Hn|]. exists [], rest. auto.
    + intros H. destruct (IH H) as [Hn (before & rest & Hs & Hb)].
      split; [exact Hn|].
      assert (Hc : is_digit c = false).
      { destruct (is_digit c) eqn:Ec; [|reflexivity].
        now apply match_here_digit with (r := r) in Ec. }
      exists (c :: before), rest. subst r. simpl. rewrite Hc, Hb. auto.
Qed.

(** There is a match exactly when the text has a digit. *)
Lemma first_match_none s :
  first_match s = None <-> forallb (fun c => negb (is_digit c)) s = true.
Proof.
  induction s as [|c r IH]; cbn [first_match forallb].
  - split; reflexivity.
  - destruct (is_digit c) eqn:Ec.
    + pose proof (match_here_digit c r Ec) as Hm.
      destruct (match_here (c :: r)); [|contradiction].
      split; discriminate.
    + assert (E : match_here (c :: r) = None).
      { unfold match_here. cbn [leading_digits]. now rewrite Ec. }
      rewrite E. simpl. exact IH.
Qed.

End Pattern.

(* ================================================================== *)
(** ** The numeric normalizer on concrete inputs *)
(* ================================================================== *)

Lemma literals_are_nearest_doubles :
  decimal false 123456 (-2) = n1234_56 /\ decimal false 9999 (-2) = n99_99
  /\ of_Z 1050 = n1050 /\ of_Z 123 = n123 /\ of_Z 123456 = n123456
  /\ of_Z 5 = n5.
Proof. repeat split; vm_compute; reflexivity. Qed.

(** C4. The normalizer satisfies the five test equations of the
    specification: "1.234,56" and "1 234,56 EUR-sign" give 1234.56,
    "kein Preis" and [null] give [null], "99,99" gives 99.99. *)
Theorem normalizer_test_equations :
  normalizeNumberString (Some (js "1.234,56")) = Some n1234_56
  /\ normalizeNumberString (Some (js "1 234,56 " ++ [EURO])) = Some n1234_56
  /\ normalizeNumberString (Some (js "kein Preis")) = None
  /\ normalizeNumberString None = None
  /\ normalizeNumberString (Some (js "99,99")) = Some n99_99.
Proof. repeat split; vm_compute; reflexivity. Qed.

(** C9. On the plain decimal "1234.56" the pattern of line 17 matches
    only the first three digits, so the normalizer returns 123, not the
    thousands-stripped 123456; "1234,56", which the comment of line 16
    lists among the patterns to find, gives 123 as well. *)
Theorem normalizer_american_decimal :
  NumberPattern.first_match (js "1234.56") = Some (js "123")
  /\ normalizeNumberString (Some (js "1234.56")) = Some n123
  /\ normalizeNumberString (Some (js "1234.56")) <> Some n123456
  /\ normalizeNumberString (Some (js "1234,56")) = Some n123.
Proof. repeat split; try (vm_compute; reflexivity). vm_compute. discriminate. Qed.

(* ================================================================== *)
(** ** The built-in functions on concrete inputs *)
(* ================================================================== *)

Example parseFloat_examples :
  parseFloat (js "  -1.5e3xyz") = decimal true 1500 0
  /\ parseFloat (js "5.") = n5
  /\ parseFloat (js ".5") = decimal false 5 (-1)
  /\ parseFloat (js ".") = NaN
  /\ parseFloat (js "1e") = of_Z 1
  /\ parseFloat (js "1e400") = Infinity
  /\ parseFloat (js "9007199254740993") = of_Z 9007199254740992
  /\ parseFloat (js "Infinity and beyond") = Infinity.
Proof. repeat split; vm_compute; reflexivity. Qed.

Example StringToNumber_examples :
  StringToNumber (js " 12.5 ") = decimal false 125 (-1)
  /\ StringToNumber (js "12,5") = NaN
  /\ StringToNumber (js "") = S754_zero false
  /\ StringToNumber (js "0x1F") = of_Z 31
  /\ StringToNumber (js "0b102") = NaN
  /\ StringToNumber (js "abc") = NaN.
Proof. repeat split; vm_compute; reflexivity. Qed.

Example Number_examples :
  Number (JStr (js "0")) = Some (S754_zero false)
  /\ Number (JBool true) = Some (of_Z 1)
  /\ Number (JArr []) = Some (S754_zero false)
  /\ Number (JArr [JArr [JStr (js "5")]]) = Some n5
  /\ Number (JArr [JNum n5; JNum n5]) = Some NaN
  /\ Number (JObj [(js "amount", JNum n5)]) = Some NaN
  /\ Number (JObj [(TO_STRING, JNum n5)]) = None.
Proof. repeat split; vm_compute; reflexivity. Qed.

Example toLowerCase_examples :
  toLowerCase (js "AnKaufsPreis") = js "ankaufspreis"
  /\ toLowerCase [0x212A; 65; 0xC4] = [107; 97; 0xC4].
Proof. repeat split; vm_compute; reflexivity. Qed.

(** The narrow no-break space is removed before the match, so a number
    grouped with it loses its groups; an ordinary or no-break space
    between the groups is kept as a group separator. *)
Example normalizer_group_separators :
  normalizeNumberString (Some ([49; 0xA0] ++ js "050,00")) = Some n1050
  /\ normalizeNumberString (Some (js "1 050,00")) = Some n1050
  /\ normalizeNumberString (Some ([49; NNBSP] ++ js "050,00"))
     = Some (of_Z 105).
Proof. repeat split; vm_compute; reflexivity. Qed.

(** A script whose coercion throws is left at the [catch] of line 54
    and the next script is scanned. *)
Example jsonld_throw_is_caught :
  scan_scripts [None;
                Some (JArr [offer_with_price (JObj [(TO_STRING, JNull)]);
                            offer_with_price (JNum n1050)]);
                Some (offer_with_price (JStr (js "5")))]
  = Some n5.
Proof. vm_compute. reflexivity. Qed.

(* ================================================================== *)
(** ** What the strategies return *)
(* ================================================================== *)

Lemma normalizeNumberString_finite s x :
  normalizeNumberString s = Some x -> isFinite x = true.
Proof.
  unfold normalizeNumberString.
  destruct s as [[|c r]|]; try discriminate.
  destruct (NumberPattern.first_match _) as [m|]; try discriminate.
  destruct (isFinite (parseFloat _)) eqn:E; try discriminate.
  intros H. injection H as <-. exact E.
Qed.

Lemma trySelector_normalized pg sel x :
  trySelector pg sel = Some x -> normalized x.
Proof.
  unfold trySelector. destruct (query pg sel) as [el|]; try discriminate.
  intros H. eexists. exact H.
Qed.

Lemma scan_metas_normalized ms x :
  scan_metas ms = Some x -> normalized x.
Proof.
  induction ms as [|m rest IH]; cbn [scan_metas]; try discriminate.
  destruct (meta_name m) as [[|c n]|]; auto.
  destruct (attr_content m) as [[|d content]|]; auto.
  destruct (existsb _ META_KEYS); auto.
  match goal with
  | |- context [normalizeNumberString ?a] =>
      destruct (normalizeNumberString a) as [v|] eqn:E; auto
  end.
  intros H. injection H as <-. eexists. exact E.
Qed.

Lemma tryMeta_normalized pg x : tryMeta pg = Some x -> normalized x.
Proof.
  unfold tryMeta. destruct (metas pg); try discriminate.
  apply scan_metas_normalized.
Qed.

Lemma tryHeuristic_normalized pg x : tryHeuristic pg = Some x -> normalized x.
Proof.
  unfold tryHeuristic. destruct (body pg) as [els|]; try discriminate.
  destruct (Heuristic.evaluate els) as [[|c found]|]; try discriminate.
  intros H. eexists. exact H.
Qed.

Lemma offer_price_inv offer x :
  offer_price offer = Return x ->
  exists p,
    In p (to_list (get offer PRICE)
          ++ to_list (get (get offer PRICE_SPECIFICATION) PRICE))
    /\ truthy (Some p) = true /\ Number p = Some x.
Proof.
  unfold offer_price.
  destruct (truthy offer && _); try discriminate.
  unfold or_else, and_then.
  destruct (truthy (get offer PRICE)) eqn:Hp.
  - destruct (get offer PRICE) as [p|] eqn:Gp; try discriminate.
    rewrite Hp. destruct (Number p) as [y|] eqn:Np; try discriminate.
    intros H. injection H as <-.
    exists p. simpl. auto.
  - destruct (truthy (get offer PRICE_SPECIFICATION)) eqn:Hs.
    + destruct (get (get offer PRICE_SPECIFICATION) PRICE) as [p|] eqn:Gp;
        try discriminate.
      destruct (truthy (Some p)) eqn:Tp; try discriminate.
      destruct (Number p) as [y|] eqn:Np; try discriminate.
      intros H. injection H as <-.
      exists p. split; [|auto]. apply in_or_app. right. simpl. auto.
    + destruct (get offer PRICE_SPECIFICATION) as [q|]; try discriminate.
      rewrite Hs. discriminate.
Qed.

Lemma item_price_inv item x :
  item_price item = Return x ->
  exists p,
    In p (price_fields item) /\ truthy (Some p) = true /\ Number p = Some x.
Proof.
  unfold item_price, price_fields, first_offer.
  destruct (truthy (Some item) && truthy (get (Some item) OFFERS));
    try discriminate.
  apply offer_price_inv.
Qed.

Lemma scan_items_inv arr x :
  scan_items arr = Return x ->
  exists p,
    In p (flat_map price_fields arr) /\ truthy (Some p) = true
    /\ Number p = Some x.
Proof.
  induction arr as [|item rest IH]; simpl; try discriminate.
  destruct (item_price item) as [v| |] eqn:E; try discriminate.
  - intros H. injection H as <-.
    destruct (item_price_inv _ _ E) as (p & Hin & Ht & Hx).
    exists p. split; [apply in_or_app; auto | auto].
  - intros H. destruct (IH H) as (p & Hin & Ht & Hx).
    exists p. split; [apply in_or_app; auto | auto].
Qed.

Lemma scan_scripts_inv data x :
  scan_scripts data = Some x -> coerced_from data x.
Proof.
  unfold coerced_from, document_prices.
  induction data as [|script rest IH]; simpl; try discriminate.
  destruct script as [parsed|].
  - destruct (scan_items _) as [v| |] eqn:E.
    + intros H. injection H as <-.
      destruct (scan_items_inv _ _ E) as (p & Hin & Ht & Hx).
      exists p. split; [|auto].
      rewrite flat_map_app. apply in_or_app. left.
      destruct parsed; exact Hin.
    + intros H. destruct (IH H) as (p & Hin & Ht & Hx).
      exists p. split; [|auto].
      rewrite flat_map_app. apply in_or_app. right. exact Hin.
    + intros H. destruct (IH H) as (p & Hin & Ht & Hx).
      exists p. split; [|auto].
      rewrite flat_map_app. apply in_or_app. right. exact Hin.
  - intros H. destruct (IH H) as (p & Hin & Ht & Hx).
    exists p. auto.
Qed.

Lemma tryJSONLD_inv pg x :
  tryJSONLD pg = Some x ->
  exists data, ld_json pg = Resolves data /\ coerced_from data x.
Proof.
  unfold tryJSONLD. destruct (ld_json pg) as [data|]; try discriminate.
  intros H. exists data. split; [reflexivity | apply scan_scripts_inv, H].
Qed.

(* ================================================================== *)
(** ** The strategy chain *)
(* ================================================================== *)

(** The calls of one iteration are the planned strategies, in order,
    cut after the first that finds a price; [price] and [notes] follow
    from the calls. *)
Lemma iteration_spec v coin :
  let it := iteration v coin in
  calls it
    = until_found (map (fun s => (s, attempt (page v) coin s)) (planned coin))
  /\ price it = found (calls it)
  /\ notes it = navigation_notes v ++ flat_map note_of (calls it).
Proof.
  chain_cases v coin; repeat split; reflexivity.
Qed.

Lemma scrape_fields v coin :
  price_eur (scrape v coin) = price (iteration v coin)
  /\ r_notes (scrape v coin) = notes (iteration v coin)
  /\ ok (scrape v coin) = negb (price_is_null (iteration v coin))
  /\ r_id (scrape v coin) = id coin
  /\ r_name (scrape v coin) = name coin
  /\ r_url (scrape v coin) = url coin.
Proof. repeat split; reflexivity. Qed.

Lemma found_until_found l :
  forall x, found (until_found l) = Some x ->
            exists s, In (s, Some x) (until_found l) /\ In (s, Some x) l.
Proof.
  induction l as [|[s [v|]] rest IH]; intros x; simpl; try discriminate.
  - intros H. injection H as <-. exists s. auto.
  - intros H. destruct (IH x H) as (s' & H1 & H2). exists s'. auto.
Qed.

(* ================================================================== *)
(** ** The batch *)
(* ================================================================== *)

Section Batch.

Variable browser : Browser.

Lemma main_loop_visits coins :
  forall n results,
    main_loop browser n coins results = results ++ visits browser n coins.
Proof.
  induction coins as [|coin rest IH]; intros n results; simpl.
  - now rewrite app_nil_r.
  - rewrite IH, <- app_assoc. reflexivity.
Qed.

Lemma items_visits now coins :
  items (main browser now coins) = visits browser 0 coins.
Proof. unfold main; simpl. apply main_loop_visits. Qed.

Lemma visits_length coins :
  forall n, List.length (visits browser n coins) = List.length coins.
Proof. induction coins; intros n; simpl; auto. Qed.

Lemma visits_ids coins :
  forall n, map r_id (visits browser n coins) = map id coins.
Proof.
  induction coins as [|c rest IH]; intros n; simpl; [reflexivity|].
  now rewrite IH.
Qed.

Lemma visits_nth coins :
  forall n i coin,
    nth_error coins i = Some coin ->
    nth_error (visits browser n coins) i
      = Some (scrape (browser (n + i)%nat (url coin)) coin).
Proof.
  induction coins as [|c rest IH]; intros n [|i] coin; simpl; try discriminate.
  - intros H. injection H as ->. now rewrite Nat.add_0_r.
  - intros H. rewrite (IH (S n) i coin H). now rewrite Nat.add_succ_r.
Qed.

Lemma visits_Forall (P : ScrapeResult -> Prop) coins :
  (forall v coin, P (scrape v coin)) ->
  forall n, Forall P (visits browser n coins).
Proof.
  intros HP. induction coins; intros n; simpl; constructor; auto.
Qed.

End Batch.

Lemma scrape_ok v coin :
  ok (scrape v coin) = is_some (price_eur (scrape v coin)).
Proof.
  unfold scrape, result_of, price_is_null; simpl.
  destruct (price (iteration v coin)); reflexivity.
Qed.

(** C3. Every result of the batch has [ok] true exactly when its price
    is not [null]. *)
Theorem ok_iff_price_present :
  forall (browser : Browser) (now : jsstring) (coins : list Coin),
    Forall (fun r => ok r = is_some (price_eur r))
           (items (main browser now coins)).
Proof.
  intros browser now coins. rewrite items_visits.
  apply visits_Forall. apply scrape_ok.
Qed.

(** C8. The report has one result per coin, in input order: the
    [i]-th item is the result of the [i]-th coin on the [i]-th
    navigation, whatever happened to the coins before it. When that
    navigation fails, the first note of the item is "page-load-failed: "
    followed by the detail of the error. *)
Theorem batch_is_complete :
  forall (browser : Browser) (now : jsstring) (coins : list Coin),
    List.length (items (main browser now coins)) = List.length coins
    /\ map r_id (items (main browser now coins)) = map id coins
    /\ forall i coin,
         nth_error coins i = Some coin ->
         exists r,
           nth_error (items (main browser now coins)) i = Some r
           /\ r = scrape (browser i (url coin)) coin
           /\ r_id r = id coin /\ r_name r = name coin /\ r_url r = url coin
           /\ forall err,
                goto (browser i (url coin)) = Some err ->
                exists note rest,
                  r_notes r = note :: rest
                  /\ note = js "page-load-failed: " ++ error_detail err
                  /\ prefixb (js "page-load-failed:") note = true.
Proof.
  intros browser now coins. rewrite items_visits.
  split; [apply visits_length|]. split; [apply visits_ids|].
  intros i coin Hi.
  exists (scrape (browser i (url coin)) coin).
  split; [exact (visits_nth browser coins 0 i coin Hi)|].
  repeat (split; [reflexivity|]).
  intros err Herr.
  destruct (iteration_spec (browser i (url coin)) coin) as (_ & _ & Hn).
  destruct (scrape_fields (browser i (url coin)) coin) as (_ & Hr & _).
  rewrite Hr, Hn. unfold navigation_notes. rewrite Herr.
  eexists. eexists. split; [reflexivity|]. split; reflexivity.
Qed.

Lemma batch_is_complete_witness :
  map r_notes (items (main flaky_browser (js "2024-01-01T00:00:00.000Z")
                           [coin_selector; coin_plain]))
  = [[js "page-load-failed: Navigation timeout of 30000 ms exceeded";
      js "selector-not-found"; js "not-found"];
     [js "heuristic"]]
  /\ exists r,
       nth_error (items (main flaky_browser (js "2024-01-01T00:00:00.000Z")
                              [coin_selector; coin_plain])) 1
       = Some r /\ r_id r = id coin_plain.
Proof.
  split; [vm_compute; reflexivity|].
  destruct (batch_is_complete flaky_browser (js "2024-01-01T00:00:00.000Z")
              [coin_selector; coin_plain]) as (_ & _ & H).
  destruct (H 1%nat coin_plain eq_refl) as (r & Hr & _ & Hid & _).
  exists r. split; assumption.
Defined.

(* ================================================================== *)
(** ** Total failure *)
(* ================================================================== *)

(** C7. When every strategy of the chain returns [null] (the selector
    strategy only if a selector is configured), the result has no
    price, [ok] is false and the last note is "not-found". *)
Theorem total_failure :
  forall (v : Visit) (coin : Coin),
    (selector_configured coin = true ->
     trySelector (page v) (selector_text coin) = None) ->
    tryJSONLD (page v) = None ->
    tryMeta (page v) = None ->
    tryHeuristic (page v) = None ->
    price_eur (scrape v coin) = None
    /\ ok (scrape v coin) = false
    /\ exists before, r_notes (scrape v coin) = before ++ [js "not-found"].
Proof.
  intros v coin Hs Hj Hm Hh.
  unfold scrape, result_of, iteration, chain, navigate,
    step_heuristic, step_meta, step_jsonld, step_selector.
  rewrite Hj, Hm, Hh.
  destruct (goto v); destruct (selector_configured coin);
    try rewrite (Hs eq_refl);
    cbn [price_is_null price notes calls push set_price called fresh
         price_eur ok r_notes negb];
    repeat split; eexists; reflexivity.
Qed.

Lemma total_failure_witness :
  price_eur (scrape (failed blank_page) coin_selector) = None
  /\ ok (scrape (failed blank_page) coin_selector) = false
  /\ exists before,
       r_notes (scrape (failed blank_page) coin_selector)
       = before ++ [js "not-found"].
Proof.
  apply (total_failure (failed blank_page) coin_selector);
    intros; vm_compute; reflexivity.
Defined.

(* ================================================================== *)
(** ** Notes as an audit trail *)
(* ================================================================== *)

(** On a page where only the heuristic finds a price, three strategies
    are called and one note is written. *)
Lemma failed_attempts_leave_no_note :
  calls (iteration (loaded (with_body [text_element ANKAUFSPREIS] blank_page))
                   coin_plain)
  = [(JsonLd, None); (Meta, None); (HeuristicSearch, Some n1050)]
  /\ r_notes (scrape (loaded (with_body [text_element ANKAUFSPREIS] blank_page))
                     coin_plain)
     = [js "heuristic"]
  /\ ~ one_tag_per_attempt
         (loaded (with_body [text_element ANKAUFSPREIS] blank_page)) coin_plain.
Proof.
  split; [vm_compute; reflexivity|].
  split; [vm_compute; reflexivity|].
  intros (tags & Hn & Hf).
  apply Forall2_length in Hf.
  apply (f_equal (@List.length jsstring)) in Hn.
  rewrite length_app in Hn.
  replace (List.length (calls _)) with 3%nat in Hf by (vm_compute; reflexivity).
  rewrite <- Hf in Hn. vm_compute in Hn. discriminate.
Qed.

(** C1 (amended). The calls of an iteration are the planned strategies
    (Selector if configured, Structured-Data, Metadata, Heuristic) in
    that order, up to the first that finds a price, and the notes are,
    after the note of a failed navigation, the notes of these calls in
    call order: one for every Selector and Heuristic call, one for a
    Structured-Data or Metadata call that finds a price, none for one
    that does not. *)
Theorem notes_follow_calls :
  forall (v : Visit) (coin : Coin),
    calls (iteration v coin)
      = until_found (map (fun s => (s, attempt (page v) coin s)) (planned coin))
    /\ r_notes (scrape v coin)
       = navigation_notes v ++ flat_map note_of (calls (iteration v coin))
    /\ (forall p, note_of (JsonLd, None) = [] /\ note_of (Meta, None) = []
                  /\ note_of (JsonLd, Some p) = [js "json-ld"]
                  /\ note_of (Meta, Some p) = [js "meta"]
                  /\ note_of (Selector, Some p) = [js "selector"]
                  /\ note_of (Selector, None) = [js "selector-not-found"]
                  /\ note_of (HeuristicSearch, Some p) = [js "heuristic"]
                  /\ note_of (HeuristicSearch, None) = [js "not-found"]).
Proof.
  intros v coin.
  destruct (iteration_spec v coin) as (Hc & _ & Hn).
  split; [exact Hc|]. split; [exact Hn|].
  intros p. repeat split; reflexivity.
Qed.

(* ================================================================== *)
(** ** Where a price comes from *)
(* ================================================================== *)

(** Structured data whose price is the string "abc": the result carries
    [NaN] as its price, with [ok] true. *)
Lemma jsonld_price_not_a_number :
  price_eur (scrape (loaded (with_ld_json
                               [Some (offer_with_price (JStr (js "abc")))]
                               blank_page)) coin_plain) = Some NaN
  /\ ok (scrape (loaded (with_ld_json
                           [Some (offer_with_price (JStr (js "abc")))]
                           blank_page)) coin_plain) = true
  /\ isFinite NaN = false
  /\ ~ price_is_normalized
         (scrape (loaded (with_ld_json
                            [Some (offer_with_price (JStr (js "abc")))]
                            blank_page)) coin_plain).
Proof.
  split; [vm_compute; reflexivity|].
  split; [vm_compute; reflexivity|].
  split; [reflexivity|].
  intros H. destruct (H NaN) as [Hf _]; [vm_compute; reflexivity|].
  discriminate.
Qed.

(* ================================================================== *)
(** ** Chain ordering: the selector wins *)
(* ================================================================== *)

(** The selector matches and its text normalizes, yet the notes are not
    exactly ["selector"]: the navigation failed and left its note first. *)
Lemma selector_after_failed_navigation :
  selector_configured coin_selector = true
  /\ trySelector selector_page (selector_text coin_selector) = Some n1234_56
  /\ tryJSONLD selector_page = Some n5
  /\ price_eur (scrape (failed selector_page) coin_selector) = Some n1234_56
  /\ r_notes (scrape (failed selector_page) coin_selector)
     = [js "page-load-failed: Navigation timeout of 30000 ms exceeded";
        js "selector"]
  /\ r_notes (scrape (failed selector_page) coin_selector) <> [js "selector"].
Proof.
  repeat split; try (vm_compute; reflexivity).
  vm_compute. discriminate.
Qed.

(** C5 (amended). When a selector is configured, its element is found
    and the element's text normalizes to [x], the price is [x], the
    selector strategy is the only one called, and the notes are exactly
    ["selector"] when the navigation succeeded, and the note of the
    failed navigation followed by "selector" when it did not. *)
Theorem selector_wins :
  forall (v : Visit) (coin : Coin) (el : Element) (x : number),
    selector_configured coin = true ->
    query (page v) (selector_text coin) = Resolves el ->
    normalizeNumberString
      (Some (trim (text_or (innerText el) (textContent el)))) = Some x ->
    price_eur (scrape v coin) = Some x
    /\ ok (scrape v coin) = true
    /\ calls (iteration v coin) = [(Selector, Some x)]
    /\ r_notes (scrape v coin)
       = match goto v with
         | None => [js "selector"]
         | Some err =>
             [js "page-load-failed: " ++ error_detail err; js "selector"]
         end.
Proof.
  intros v coin el x Hsel Hq Hn.
  assert (Ht : trySelector (page v) (selector_text coin) = Some x).
  { unfold trySelector. rewrite Hq. exact Hn. }
  unfold scrape, result_of, iteration, chain, navigate,
    step_heuristic, step_meta, step_jsonld, step_selector.
  rewrite Hsel, Ht.
  destruct (goto v); simpl; repeat split; reflexivity.
Qed.

Lemma selector_wins_witness :
  price_eur (scrape (loaded selector_page) coin_selector) = Some n1234_56
  /\ ok (scrape (loaded selector_page) coin_selector) = true
  /\ calls (iteration (loaded selector_page) coin_selector)
     = [(Selector, Some n1234_56)]
  /\ r_notes (scrape (loaded selector_page) coin_selector) = [js "selector"].
Proof.
  apply (selector_wins (loaded selector_page) coin_selector
           (text_element (js "1.234,56")) n1234_56);
    vm_compute; reflexivity.
Defined.

(* ================================================================== *)
(** ** The heuristic fallback *)
(* ================================================================== *)

Lemma earlier_keyword_element_wins :
  fallback_scenario (loaded two_offers_page) coin_plain
  /\ price_eur (scrape (loaded two_offers_page) coin_plain) = Some n5
  /\ ~ fallback_result (scrape (loaded two_offers_page) coin_plain).
Proof.
  split.
  - repeat split.
    exists [text_element (js "Ankauf ab 5 g"); text_element ANKAUFSPREIS].
    exists (text_element ANKAUFSPREIS).
    split; [reflexivity|]. split; [simpl; auto | reflexivity].
  - split; [vm_compute; reflexivity|].
    intros (Hp & _). vm_compute in Hp. discriminate.
Qed.

Lemma first_hit_app hit pre el post num :
  Forall (fun e => hit e = None) pre ->
  hit el = Some num ->
  Heuristic.first_hit hit (pre ++ el :: post) = Some num.
Proof.
  intros Hpre Hel. induction Hpre as [|e pre He _ IH]; simpl.
  - now rewrite Hel.
  - now rewrite He.
Qed.

Lemma keyword_hit_ankaufspreis el :
  Heuristic.element_text el = ANKAUFSPREIS ->
  Heuristic.keyword_hit el = Some (js "1.050,00").
Proof.
  intros H. unfold Heuristic.keyword_hit. rewrite H.
  vm_compute. reflexivity.
Qed.

(** C6 (amended). For a coin without a configured selector, on a page
    where the Structured-Data and Metadata strategies find nothing and
    where the first element of the body, in document order, whose text
    has a keyword and a number is one with the text
    "Ankaufspreis: 1.050,00 EUR-sign", the price is 1050, [ok] is true
    and the last note is "heuristic". *)
Theorem heuristic_fallback :
  forall (v : Visit) (coin : Coin) (pre post : list Element) (el : Element),
    selector_configured coin = false ->
    tryJSONLD (page v) = None ->
    tryMeta (page v) = None ->
    body (page v) = Resolves (pre ++ el :: post) ->
    Forall (fun e => Heuristic.keyword_hit e = None) pre ->
    Heuristic.element_text el = ANKAUFSPREIS ->
    fallback_result (scrape v coin).
Proof.
  intros v coin pre post el Hsel Hj Hm Hb Hpre Hel.
  assert (Hh : tryHeuristic (page v) = Some n1050).
  { unfold tryHeuristic, Heuristic.evaluate. rewrite Hb.
    rewrite (first_hit_app _ pre el post _ Hpre (keyword_hit_ankaufspreis el Hel)).
    vm_compute. reflexivity. }
  unfold fallback_result, scrape, result_of, iteration, chain, navigate,
    step_heuristic, step_meta, step_jsonld, step_selector.
  rewrite Hsel, Hj, Hm, Hh.
  destruct (goto v);
    cbn [price_is_null price notes calls push set_price called fresh
         price_eur ok r_notes negb];
    repeat split; eexists; reflexivity.
Qed.

Lemma heuristic_fallback_witness :
  fallback_result
    (scrape (loaded (with_body [text_element (js "Silber und Gold");
                                text_element ANKAUFSPREIS;
                                text_element (js "Ankauf ab 5 g")]
                               blank_page)) coin_plain).
Proof.
  apply (heuristic_fallback _ coin_plain
           [text_element (js "Silber und Gold")]
           [text_element (js "Ankauf ab 5 g")]
           (text_element ANKAUFSPREIS)).
  - reflexivity.
  - reflexivity.
  - reflexivity.
  - reflexivity.
  - constructor; [vm_compute; reflexivity | constructor].
  - vm_compute. reflexivity.
Defined.

(* ================================================================== *)
(** ** Structured data: the truthiness guard *)
(* ================================================================== *)

(** A price given as the string "0" passes the guard of line 50 and is
    coerced to the number 0, which the main loop records as a price. *)
Lemma jsonld_string_zero_is_found :
  tryJSONLD (with_ld_json [Some (offer_with_price (JStr (js "0")))] blank_page)
  = Some (S754_zero false)
  /\ price_eur (scrape (loaded (with_ld_json
                                  [Some (offer_with_price (JStr (js "0")))]
                                  blank_page)) coin_plain)
     = Some (S754_zero false)
  /\ ~ never_found_zero.
Proof.
  split; [vm_compute; reflexivity|].
  split; [vm_compute; reflexivity|].
  intros H.
  apply (H (with_ld_json [Some (offer_with_price (JStr (js "0")))] blank_page)
           false).
  vm_compute. reflexivity.
Qed.

Lemma lookup_remove_same k ms : lookup k (remove_key k ms) = None.
Proof.
  induction ms as [|[k' v] rest IH]; simpl; [reflexivity|].
  destruct (str_eqb k k') eqn:E; simpl; [exact IH|].
  now rewrite E.
Qed.

Lemma lookup_remove_other k k' ms :
  str_eqb k' k = false -> lookup k' (remove_key k ms) = lookup k' ms.
Proof.
  intros Hne. induction ms as [|[k0 v] rest IH]; simpl; [reflexivity|].
  destruct (str_eqb k k0) eqn:E; simpl.
  - apply str_eqb_eq in E. subst k0. now rewrite Hne.
  - now rewrite IH.
Qed.

Lemma get_falsy v k : truthy v = false -> get v k = None.
Proof. destruct v as [[]|]; simpl; try reflexivity; discriminate. Qed.

Lemma find_truthy_single (v : value) :
  find (fun p => truthy (Some p)) (to_list v)
  = if truthy v then v else None.
Proof.
  destruct v as [p|]; [|reflexivity].
  cbn [to_list find]. now destruct (truthy (Some p)).
Qed.

Lemma find_app {A : Type} (f : A -> bool) (a b : list A) :
  find f (a ++ b) = match find f a with Some x => Some x | None => find f b end.
Proof.
  induction a as [|x a IH]; [reflexivity|].
  cbn [app find]. now destruct (f x).
Qed.

(** Lines 48-51 read the first truthy one of the two price fields of
    the offer, and fall through when there is none. *)
Lemma offer_price_chosen offer :
  offer_price offer
  = match find (fun p => truthy (Some p))
               (to_list (get offer PRICE)
                ++ to_list (get (get offer PRICE_SPECIFICATION) PRICE)) with
    | Some p => match Number p with
                | Some v => Return v
                | None => Throw
                end
    | None => Continue
    end.
Proof.
  rewrite find_app, !find_truthy_single. unfold offer_price, or_else, and_then.
  destruct (truthy offer) eqn:To.
  2: { rewrite (get_falsy offer PRICE To).
       rewrite (get_falsy offer PRICE_SPECIFICATION To). reflexivity. }
  cbn [andb].
  destruct (truthy (get offer PRICE)) eqn:Tp.
  - cbn [orb]. destruct (get offer PRICE) as [p|]; [|discriminate].
    now rewrite Tp.
  - cbn [orb].
    destruct (truthy (get offer PRICE_SPECIFICATION)) eqn:Ts.
    + destruct (get (get offer PRICE_SPECIFICATION) PRICE) as [q|];
        [|reflexivity].
      now destruct (truthy (Some q)).
    + now rewrite (get_falsy _ PRICE Ts).
Qed.

Lemma item_price_chosen item :
  item_price item
  = match chosen_price item with
    | Some p => match Number p with
                | Some v => Return v
                | None => Throw
                end
    | None => Continue
    end.
Proof.
  unfold chosen_price, price_fields, first_offer, item_price.
  destruct (truthy (Some item)) eqn:Ti.
  2: { rewrite (get_falsy (Some item) OFFERS Ti). reflexivity. }
  cbn [andb].
  destruct (truthy (get (Some item) OFFERS)) eqn:To;
    [apply offer_price_chosen|].
  destruct (get (Some item) OFFERS) as [[]|]; try discriminate; reflexivity.
Qed.

Lemma find_truthy_nonzero l :
  find (fun p => truthy (Some p)) l
  = find (fun p => truthy (Some p))
         (filter (fun p => negb (is_zero_number p)) l).
Proof.
  induction l as [|p l IH]; [reflexivity|].
  cbn [find filter].
  destruct (is_zero_number p) eqn:Z; cbn [negb].
  - destruct p as [| |[]| | |]; try discriminate. exact IH.
  - cbn [find]. now rewrite IH.
Qed.

Lemma find_all_false {A : Type} (f : A -> bool) l :
  Forall (fun x => f x = false) l -> find f l = None.
Proof.
  induction 1 as [|x l Hx Hl IH]; [reflexivity|].
  cbn [find]. now rewrite Hx.
Qed.

Lemma item_price_falsy item :
  Forall (fun p => truthy (Some p) = false) (price_fields item) ->
  item_price item = Continue.
Proof.
  intros H. rewrite item_price_chosen. unfold chosen_price.
  now rewrite (find_all_false _ _ H).
Qed.

Lemma scan_items_falsy arr :
  Forall (fun p => truthy (Some p) = false) (flat_map price_fields arr) ->
  scan_items arr = Continue.
Proof.
  induction arr as [|item arr IH]; [reflexivity|].
  cbn [flat_map scan_items]. intros H. apply Forall_app in H.
  destruct H as [Hi Hr]. now rewrite (item_price_falsy item Hi), IH.
Qed.

(** C10 (amended). The number 0 is falsy, so a [price] or a
    [priceSpecification.price] that is the number 0 is skipped and the
    strategy proceeds as if that field were not there: an item is read
    by the first truthy one of its two price fields; items whose price
    fields differ only by fields that are the number 0 are read alike;
    an item, or a whole script, without a truthy price field hands over
    to the next item, or the next script; and the strategy returns
    [null] when no price field of the document is truthy. *)
Theorem zero_price_is_skipped :
  (forall sign, truthy (Some (JNum (S754_zero sign))) = false)
  /\ (forall ms sign,
        lookup PRICE ms = Some (JNum (S754_zero sign)) ->
        offer_price (Some (JObj ms))
        = offer_price (Some (JObj (remove_key PRICE ms))))
  /\ (forall im ms more,
        lookup OFFERS im = Some (JObj ms)
        \/ lookup OFFERS im = Some (JArr (JObj ms :: more)) ->
        item_price (JObj im) = offer_price (Some (JObj ms)))
  /\ (forall pg data,
        ld_json pg = Resolves data ->
        Forall (fun p => truthy (Some p) = false) (document_prices data) ->
        tryJSONLD pg = None)
  /\ (forall item,
        item_price item
        = match chosen_price item with
          | Some p => match Number p with
                      | Some v => Return v
                      | None => Throw
                      end
          | None => Continue
          end)
  /\ (forall item item',
        filter (fun p => negb (is_zero_number p)) (price_fields item)
        = filter (fun p => negb (is_zero_number p)) (price_fields item') ->
        item_price item = item_price item')
  /\ (forall item rest,
        Forall (fun p => truthy (Some p) = false) (price_fields item) ->
        scan_items (item :: rest) = scan_items rest)
  /\ (forall parsed later,
        Forall (fun p => truthy (Some p) = false)
               (flat_map price_fields (script_items (Some parsed))) ->
        scan_scripts (Some parsed :: later) = scan_scripts later).
Proof.
  split; [reflexivity|]. split; [|split; [|split; [|split; [|split; [|split]]]]].
  - intros ms sign Hp.
    unfold offer_price, or_else, and_then, get.
    rewrite Hp, lookup_remove_same.
    rewrite (lookup_remove_other PRICE PRICE_SPECIFICATION ms)
      by (vm_compute; reflexivity).
    reflexivity.
  - intros im ms more [H|H]; unfold item_price, get; rewrite H; reflexivity.
  - intros pg data Hd Hall.
    destruct (tryJSONLD pg) as [x|] eqn:E; [|reflexivity].
    destruct (tryJSONLD_inv _ _ E) as (data' & Hd' & p & Hin & Ht & _).
    rewrite Hd in Hd'. injection Hd' as <-.
    rewrite Forall_forall in Hall. rewrite (Hall p Hin) in Ht. discriminate.
  - exact item_price_chosen.
  - intros item item' H. rewrite !item_price_chosen. unfold chosen_price.
    rewrite (find_truthy_nonzero (price_fields item)), H.
    now rewrite <- find_truthy_nonzero.
  - intros item rest H. cbn [scan_items].
    now rewrite (item_price_falsy item H).
  - intros parsed later H. cbn [scan_scripts].
    assert (E : scan_items (match parsed with JArr l => l | _ => [parsed] end)
                = Continue).
    { apply scan_items_falsy. destruct parsed; exact H. }
    now rewrite E.
Qed.

(** An offer with the price 0 and a price specification of 12.5 (a
    string): the zero is skipped, the specification is coerced. A
    document whose only price fields are zeros gives [null]. An offer
    whose price and price specification are both 0 hands over to the
    next item of the script, and a script of such offers to the next
    script. *)
Lemma zero_price_is_skipped_witness :
  offer_price (Some (JObj [(PRICE, JNum (S754_zero false));
                           (PRICE_SPECIFICATION,
                            JObj [(PRICE, JStr (js "12.5"))])]))
  = offer_price (Some (JObj [(PRICE_SPECIFICATION,
                              JObj [(PRICE, JStr (js "12.5"))])]))
  /\ tryJSONLD (with_ld_json
                  [Some (JArr [offer_with_price (JNum (S754_zero false));
                               offer_with_price (JNum (S754_zero true))])]
                  blank_page) = None
  /\ scan_items [zero_priced_item; offer_with_price (JNum n5)] = Return n5
  /\ scan_scripts [Some zero_priced_item; Some (offer_with_price (JNum n5))]
     = Some n5.
Proof.
  destruct zero_price_is_skipped
    as (_ & Hskip & _ & Hnone & _ & _ & Hitem & Hscript).
  split; [|split; [|split]].
  - apply (Hskip [(PRICE, JNum (S754_zero false));
                  (PRICE_SPECIFICATION, JObj [(PRICE, JStr (js "12.5"))])]
                 false).
    reflexivity.
  - apply (Hnone _ [Some (JArr [offer_with_price (JNum (S754_zero false));
                                offer_with_price (JNum (S754_zero true))])]).
    + reflexivity.
    + repeat constructor.
  - rewrite (Hitem zero_priced_item [offer_with_price (JNum n5)])
      by (repeat constructor).
    vm_compute. reflexivity.
  - rewrite (Hscript zero_priced_item [Some (offer_with_price (JNum n5))])
      by (repeat constructor).
    vm_compute. reflexivity.
Defined.

(* ================================================================== *)
(** ** Texts: digits, white space and the cleaning of line 15 *)
(* ================================================================== *)

Lemma digit_range c : is_digit c = true <-> 48 <= c <= 57.
Proof.
  unfold is_digit. rewrite andb_true_iff, !N.leb_le. reflexivity.
Qed.

Lemma digit_not_space c : is_digit c = true -> is_space c = false.
Proof.
  intros H. apply digit_range in H.
  destruct (is_space c) eqn:E; [|reflexivity].
  unfold is_space in E.
  rewrite !orb_true_iff, !andb_true_iff, !N.eqb_eq, !N.leb_le in E. lia.
Qed.

Lemma digit_not_nnbsp c : is_digit c = true -> N.eqb NNBSP c = false.
Proof.
  intros H. apply digit_range in H. apply N.eqb_neq. unfold NNBSP. lia.
Qed.

Lemma digit_not_separator c :
  is_digit c = true ->
  N.eqb DOT c = false /\ (c =? DOT) = false /\ (c =? COMMA) = false
  /\ NumberPattern.is_group_sep c = false
  /\ NumberPattern.is_decimal_sep c = false.
Proof.
  intros H. pose proof (digit_not_space c H) as Hs. apply digit_range in H.
  unfold NumberPattern.is_group_sep, NumberPattern.is_decimal_sep.
  rewrite Hs.
  assert (E1 : (c =? DOT) = false) by (apply N.eqb_neq; unfold DOT; lia).
  assert (E2 : (c =? COMMA) = false) by (apply N.eqb_neq; unfold COMMA; lia).
  rewrite E1, E2. repeat split.
  apply N.eqb_neq. unfold DOT. lia.
Qed.

Lemma no_digit_forallb s :
  no_digit s <-> forallb (fun c => negb (is_digit c)) s = true.
Proof.
  unfold no_digit. rewrite forallb_forall, Forall_forall.
  split; intros H c Hc; specialize (H c Hc).
  - now rewrite H.
  - now apply negb_true_iff.
Qed.

Lemma dropWhile_app_stop p a d b :
  p d = false -> dropWhile p (a ++ d :: b) = dropWhile p a ++ d :: b.
Proof.
  intros Hd. induction a as [|c a IH]; simpl.
  - now rewrite Hd.
  - destruct (p c); [exact IH | reflexivity].
Qed.

Lemma trim_end_app_stop a d b :
  is_space d = false -> trim_end (a ++ d :: b) = a ++ d :: trim_end b.
Proof.
  intros Hd. unfold trim_end.
  rewrite rev_app_distr. simpl. rewrite <- app_assoc. simpl.
  rewrite (dropWhile_app_stop _ _ _ _ Hd).
  rewrite rev_app_distr. simpl.
  rewrite rev_involutive, <- app_assoc. reflexivity.
Qed.

Lemma collapse_from_app_stop p d r :
  is_space d = false ->
  forall b,
    collapse_from b (p ++ d :: r)
    = collapse_from b p ++ d :: collapse_from false r.
Proof.
  intros Hd. induction p as [|c p IH]; intros b; simpl.
  - now rewrite Hd.
  - destruct (is_space c); [destruct b|]; simpl; now rewrite IH.
Qed.

Lemma dropWhile_all p s : forallb p s = true -> dropWhile p s = [].
Proof.
  induction s as [|c r IH]; simpl; [reflexivity|].
  destruct (p c); [exact IH | discriminate].
Qed.

(** A text of white space only trims to the empty text. *)
Lemma trim_spaces s : forallb is_space s = true -> trim s = [].
Proof.
  intros H. unfold trim. now rewrite (dropWhile_all _ _ H).
Qed.

Lemma no_digit_dropWhile p s : no_digit s -> no_digit (dropWhile p s).
Proof.
  unfold no_digit. induction 1 as [|c r Hc Hr IH]; simpl; [constructor|].
  destruct (p c); [exact IH | now constructor].
Qed.

Lemma no_digit_collapse s :
  no_digit s -> forall b, no_digit (collapse_from b s).
Proof.
  unfold no_digit. induction 1 as [|c r Hc Hr IH]; intros b; simpl;
    [constructor|].
  destruct (is_space c); [destruct b|]; auto.
Qed.

Lemma no_digit_remove p s : no_digit s -> no_digit (remove_all p s).
Proof.
  unfold no_digit, remove_all. intros H.
  rewrite Forall_forall in *. intros c Hc.
  apply filter_In in Hc. now apply H.
Qed.

Lemma no_digit_trim s : no_digit s -> no_digit (trim s).
Proof.
  intros H. unfold trim, no_digit.
  apply Forall_rev. apply no_digit_dropWhile.
  apply Forall_rev. now apply no_digit_dropWhile.
Qed.

Lemma no_digit_cleaned s : no_digit s -> no_digit (cleaned s).
Proof.
  intros H. unfold cleaned, collapse_spaces.
  apply no_digit_trim, no_digit_collapse, no_digit_remove, H.
Qed.

Lemma remove_all_keep p c r :
  p c = false -> remove_all p (c :: r) = c :: remove_all p r.
Proof. intros H. unfold remove_all. cbn [filter]. now rewrite H. Qed.

Lemma remove_all_drop p c r :
  p c = true -> remove_all p (c :: r) = remove_all p r.
Proof. intros H. unfold remove_all. cbn [filter]. now rewrite H. Qed.

Lemma collapse_from_keep b c r :
  is_space c = false -> collapse_from b (c :: r) = c :: collapse_from false r.
Proof. intros H. cbn [collapse_from]. now rewrite H. Qed.

Lemma space_not_nnbsp c : is_space c = false -> N.eqb NNBSP c = false.
Proof. intros Hc. apply N.eqb_neq. intros <-. discriminate. Qed.

Lemma clean_tail_keep c r :
  is_space c = false -> clean_tail (c :: r) = c :: clean_tail r.
Proof.
  intros Hc. unfold clean_tail.
  rewrite (remove_all_keep _ c r (space_not_nnbsp c Hc)).
  rewrite (collapse_from_keep false c _ Hc).
  exact (trim_end_app_stop [] c _ Hc).
Qed.

Lemma cleaned_keep c r :
  is_space c = false -> cleaned (c :: r) = c :: clean_tail r.
Proof.
  intros Hc. unfold cleaned, clean_tail, collapse_spaces, trim.
  rewrite (remove_all_keep _ c r (space_not_nnbsp c Hc)).
  rewrite (collapse_from_keep false c _ Hc).
  cbn [dropWhile]. rewrite Hc.
  exact (trim_end_app_stop [] c _ Hc).
Qed.

Lemma cleaned_digit d r :
  is_digit d = true -> cleaned (d :: r) = d :: clean_tail r.
Proof. intros Hd. apply cleaned_keep, digit_not_space, Hd. Qed.

(** Before the first digit the cleaning leaves a text without a digit,
    from it on it does what it does without what came before. *)
Lemma cleaned_prefix pre d r :
  no_digit pre -> is_digit d = true ->
  exists q, no_digit q /\ cleaned (pre ++ d :: r) = q ++ cleaned (d :: r).
Proof.
  intros Hpre Hd.
  pose proof (digit_not_space d Hd) as Hs.
  exists (dropWhile is_space
            (collapse_from false (remove_all (N.eqb NNBSP) pre))).
  split.
  - apply no_digit_dropWhile, no_digit_collapse, no_digit_remove, Hpre.
  - rewrite (cleaned_digit d r Hd).
    unfold cleaned, clean_tail, collapse_spaces, trim, remove_all.
    rewrite filter_app. cbn [filter]. rewrite (digit_not_nnbsp d Hd).
    cbn [negb].
    rewrite (collapse_from_app_stop _ d _ Hs).
    rewrite (dropWhile_app_stop _ _ d _ Hs).
    exact (trim_end_app_stop _ d _ Hs).
Qed.

(* ================================================================== *)
(** ** The normalizer on every text *)
(* ================================================================== *)

Lemma normalize_unfold s :
  s <> [] ->
  normalizeNumberString (Some s)
  = match NumberPattern.first_match (cleaned s) with
    | None => None
    | Some m =>
        if isFinite (parseFloat (num_of m))
        then Some (parseFloat (num_of m)) else None
    end.
Proof. destruct s; [congruence | reflexivity]. Qed.

Lemma match_here_no_digit c r :
  is_digit c = false -> NumberPattern.match_here (c :: r) = None.
Proof.
  intros H. unfold NumberPattern.match_here.
  cbn [NumberPattern.leading_digits]. now rewrite H.
Qed.

Lemma first_match_skip q s :
  no_digit q ->
  NumberPattern.first_match (q ++ s) = NumberPattern.first_match s.
Proof.
  induction 1 as [|c r Hc Hr IH]; [reflexivity|].
  cbn [app NumberPattern.first_match].
  now rewrite (match_here_no_digit c _ Hc).
Qed.

(** X1. A text without a digit normalizes to [null], whatever else it
    holds. *)
Theorem normalizer_needs_a_digit :
  forall s : jsstring, no_digit s -> normalizeNumberString (Some s) = None.
Proof.
  intros [|c r] H; [reflexivity|].
  rewrite normalize_unfold by discriminate.
  assert (E : NumberPattern.first_match (cleaned (c :: r)) = None).
  { apply first_match_none, no_digit_forallb, no_digit_cleaned, H. }
  now rewrite E.
Qed.

Lemma normalizer_needs_a_digit_witness :
  normalizeNumberString (Some (js "Preis auf Anfrage " ++ [EURO])) = None.
Proof.
  apply normalizer_needs_a_digit.
  apply no_digit_forallb. vm_compute. reflexivity.
Defined.

(** X2. What stands before the first digit of a text (a label, a
    currency sign, a minus sign, white space) does not change the
    result. *)
Theorem normalizer_ignores_prefix :
  forall (pre : jsstring) (d : code_unit) (r : jsstring),
    no_digit pre -> is_digit d = true ->
    normalizeNumberString (Some (pre ++ d :: r))
    = normalizeNumberString (Some (d :: r)).
Proof.
  intros pre d r Hpre Hd.
  rewrite !normalize_unfold
    by (try discriminate; destruct pre; discriminate).
  destruct (cleaned_prefix pre d r Hpre Hd) as (q & Hq & ->).
  now rewrite (first_match_skip q _ Hq).
Qed.

Lemma normalizer_ignores_prefix_witness :
  normalizeNumberString (Some (js "Ankaufspreis: -" ++ js "1.050,00"))
  = normalizeNumberString (Some (js "1.050,00")).
Proof.
  apply (normalizer_ignores_prefix (js "Ankaufspreis: -") 49 (js ".050,00")).
  - apply no_digit_forallb. vm_compute. reflexivity.
  - reflexivity.
Defined.

Lemma digit_not_sign c : is_digit c = true -> is_sign c = false.
Proof.
  intros H. apply digit_range in H. unfold is_sign.
  apply orb_false_iff. split; apply N.eqb_neq; lia.
Qed.

(** On a text that starts with a digit [parseFloat] reads an unsigned
    decimal. *)
Lemma parseFloat_digit d r :
  is_digit d = true ->
  parseFloat (d :: r)
  = match read_decimal (d :: r) with
    | Some (m, e, _) => decimal false m e
    | None => NaN
    end.
Proof.
  intros Hd. unfold parseFloat. cbn [dropWhile].
  rewrite (digit_not_space d Hd).
  unfold read_number, read_sign. rewrite (digit_not_sign d Hd).
  change INFINITY_NAME with (73 :: js "nfinity"). cbn [prefixb].
  assert (E : (73 =? d) = false).
  { apply digit_range in Hd. apply N.eqb_neq. lia. }
  rewrite E. cbn [andb].
  destruct (read_decimal (d :: r)) as [[[m e] r']|]; reflexivity.
Qed.

Lemma binary_round_aux_sign sx mx ex lx :
  match binary_round_aux prec emax sx mx ex lx with
  | S754_zero s | S754_finite s _ _ | S754_infinity s => s = sx
  | S754_nan => True
  end.
Proof.
  unfold binary_round_aux.
  destruct (shr_fexp prec emax mx ex lx) as [mrs' e'].
  destruct (shr_fexp prec emax _ e' loc_Exact) as [mrs'' e''].
  destruct (shr_m mrs''); auto.
  destruct (Z.leb e'' (Z.sub emax prec)); reflexivity.
Qed.

(** An unsigned decimal is never negative. *)
Lemma decimal_sign m e :
  match decimal false m e with
  | S754_zero s | S754_finite s _ _ | S754_infinity s => s = false
  | S754_nan => True
  end.
Proof.
  unfold decimal. destruct m as [|p|p]; try reflexivity.
  destruct e as [|q|q].
  - unfold binary_round.
    destruct (shl_align _ _ _) as [mz ez]. apply binary_round_aux_sign.
  - unfold binary_round.
    destruct (shl_align _ _ _) as [mz ez]. apply binary_round_aux_sign.
  - unfold SFdiv.
    destruct (SFdiv_core_binary prec emax _ _ _ _) as [[mz ez] lz].
    apply (binary_round_aux_sign (xorb false false)).
Qed.

Lemma decimal_nonneg m e :
  isFinite (decimal false m e) = true ->
  nonneg_finite (decimal false m e) = true.
Proof.
  pose proof (decimal_sign m e) as H.
  destruct (decimal false m e) as [s|s| |s mm ee]; try discriminate;
    subst s; reflexivity.
Qed.

Lemma number_text_head m :
  number_text m -> exists d r, m = d :: r /\ is_digit d = true.
Proof.
  intros (ds & gs & fs & -> & Hne & _ & Hd & _).
  destruct ds as [|d ds]; [congruence|].
  simpl in Hd. apply andb_prop in Hd.
  exists d, (ds ++ gs ++ fs). split; [reflexivity | apply Hd].
Qed.

Lemma num_of_head d r :
  is_digit d = true -> exists r', num_of (d :: r) = d :: r'.
Proof.
  intros Hd. unfold num_of.
  destruct (digit_not_separator d Hd) as (E1 & _ & E3 & _).
  rewrite (remove_all_keep _ d r (digit_not_space d Hd)).
  rewrite (remove_all_keep _ d _ E1).
  cbn [replace_first]. rewrite E3. eauto.
Qed.

(** A match of the pattern starts with a digit, so [parseFloat] reads
    an unsigned decimal from it. *)
Lemma parseFloat_num_of m :
  number_text m ->
  exists mm ee,
    parseFloat (num_of m) = decimal false mm ee \/ parseFloat (num_of m) = NaN.
Proof.
  intros Hm.
  destruct (number_text_head m Hm) as (d & t & -> & Hd).
  destruct (num_of_head d t Hd) as (t' & ->).
  rewrite (parseFloat_digit d t' Hd).
  destruct (read_decimal (d :: t')) as [[[mm ee] r']|].
  - exists mm, ee. now left.
  - exists 0%Z, 0%Z. now right.
Qed.

Lemma normalize_nonneg s x :
  normalizeNumberString s = Some x -> nonneg_finite x = true.
Proof.
  destruct s as [s|]; [|discriminate].
  destruct s as [|c r]; [discriminate|].
  rewrite normalize_unfold by discriminate.
  destruct (NumberPattern.first_match _) as [m|] eqn:E; [|discriminate].
  destruct (first_match_spec _ _ E) as [Hm _].
  destruct (parseFloat_num_of m Hm) as (mm & ee & [-> | ->]);
    [|discriminate].
  destruct (isFinite (decimal false mm ee)) eqn:F; [|discriminate].
  intros H. injection H as <-. exact (decimal_nonneg mm ee F).
Qed.

(** X3. What the normalizer returns is a finite number that is not
    negative: it is never [NaN] or an infinity, and a minus sign in
    front of the digits is not read. *)
Theorem normalizer_result_nonneg_finite :
  forall (s : option jsstring) (x : number),
    normalizeNumberString s = Some x ->
    isFinite x = true /\ nonneg_finite x = true.
Proof.
  intros s x H. split;
    [exact (normalizeNumberString_finite s x H) | exact (normalize_nonneg s x H)].
Qed.

Lemma normalizer_result_nonneg_finite_witness :
  isFinite n5 = true /\ nonneg_finite n5 = true.
Proof.
  apply (normalizer_result_nonneg_finite (Some (js "-5 EUR")) n5).
  vm_compute. reflexivity.
Defined.

Lemma span_all p ds : forallb p ds = true -> span p ds = (ds, []).
Proof.
  induction ds as [|c r IH]; simpl; [reflexivity|].
  destruct (p c); [|discriminate]. intros H. now rewrite (IH H).
Qed.

Lemma span_app_stop p a c t :
  forallb p a = true -> p c = false -> span p (a ++ c :: t) = (a, c :: t).
Proof.
  intros Ha Hc. induction a as [|x a IH]; simpl in *.
  - now rewrite Hc.
  - destruct (p x); [|discriminate]. now rewrite (IH Ha).
Qed.

Lemma read_decimal_int ds :
  ds <> [] -> forallb is_digit ds = true ->
  read_decimal ds = Some (digits_val 10 ds, 0%Z, []).
Proof.
  intros Hne Hd. unfold read_decimal. rewrite (span_all _ _ Hd).
  destruct ds as [|d r]; [congruence|].
  cbn [app]. rewrite app_nil_r. reflexivity.
Qed.

Lemma read_decimal_frac ip fp :
  ip <> [] -> forallb is_digit ip = true ->
  fp <> [] -> forallb is_digit fp = true ->
  read_decimal (ip ++ DOT :: fp)
  = Some (digits_val 10 (ip ++ fp), (- Z.of_nat (List.length fp))%Z, []).
Proof.
  intros Hi Hdi Hf Hdf. unfold read_decimal.
  rewrite (span_app_stop _ ip DOT fp Hdi eq_refl).
  rewrite N.eqb_refl, (span_all _ _ Hdf).
  destruct ip as [|d r]; [congruence|]. reflexivity.
Qed.

(** [parseFloat] on digits, and on digits with a fraction. *)
Lemma parseFloat_int ds :
  ds <> [] -> forallb is_digit ds = true ->
  parseFloat ds = of_Z (digits_val 10 ds).
Proof.
  intros Hne Hd. destruct ds as [|d r]; [congruence|].
  assert (Hd1 : is_digit d = true) by (simpl in Hd; now apply andb_prop in Hd).
  rewrite (parseFloat_digit d r Hd1).
  now rewrite (read_decimal_int (d :: r) Hne Hd).
Qed.

Lemma parseFloat_frac ip fp :
  ip <> [] -> forallb is_digit ip = true ->
  fp <> [] -> forallb is_digit fp = true ->
  parseFloat (ip ++ DOT :: fp)
  = decimal false (digits_val 10 (ip ++ fp)) (- Z.of_nat (List.length fp)).
Proof.
  intros Hi Hdi Hf Hdf.
  pose proof (read_decimal_frac ip fp Hi Hdi Hf Hdf) as E.
  destruct ip as [|d r]; [congruence|].
  assert (Hd1 : is_digit d = true)
    by (simpl in Hdi; now apply andb_prop in Hdi).
  cbn [app] in *. rewrite (parseFloat_digit d _ Hd1). now rewrite E.
Qed.

Lemma digit_val_range c : is_digit c = true -> (0 <= digit_val c <= 9)%Z.
Proof.
  intros H. unfold digit_val. rewrite H. apply digit_range in H. lia.
Qed.

Lemma digits_val_snoc ds c :
  digits_val 10 (ds ++ [c]) = (digits_val 10 ds * 10 + digit_val c)%Z.
Proof. unfold digits_val. now rewrite fold_left_app. Qed.

Lemma digits_val_nonneg ds :
  forallb is_digit ds = true -> (0 <= digits_val 10 ds)%Z.
Proof.
  induction ds as [|c r IH] using rev_ind; intros H; [reflexivity|].
  rewrite forallb_app in H. apply andb_prop in H. destruct H as [Hr Hc].
  simpl in Hc. rewrite andb_true_r in Hc.
  rewrite digits_val_snoc. pose proof (digit_val_range c Hc). specialize (IH Hr).
  lia.
Qed.

Lemma small_integers_finite n :
  (0 <= n < 1000)%Z -> isFinite (of_Z n) = true.
Proof.
  intros Hn.
  assert (H : forallb (fun k => isFinite (of_Z (Z.of_nat k))) (seq 0 1000)
              = true) by (vm_compute; reflexivity).
  rewrite forallb_forall in H.
  specialize (H (Z.to_nat n)). rewrite Z2Nat.id in H by lia.
  apply H. apply in_seq. lia.
Qed.

Lemma groups_stop c s :
  NumberPattern.is_group_sep c = false ->
  NumberPattern.groups (c :: s) = ([], c :: s).
Proof.
  intros H. destruct s as [|d1 [|d2 [|d3 r]]]; simpl; try reflexivity.
  now rewrite H.
Qed.

Lemma decimals_stop c s :
  NumberPattern.is_decimal_sep c = false ->
  NumberPattern.decimals (c :: s) = ([], c :: s).
Proof. intros H. unfold NumberPattern.decimals. now rewrite H. Qed.

Lemma match_here_four d1 d2 d3 d4 z :
  is_digit d1 = true -> is_digit d2 = true -> is_digit d3 = true ->
  is_digit d4 = true ->
  NumberPattern.match_here (d1 :: d2 :: d3 :: d4 :: z) = Some [d1; d2; d3].
Proof.
  intros H1 H2 H3 H4. unfold NumberPattern.match_here.
  cbn [NumberPattern.leading_digits]. rewrite H1, H2, H3.
  destruct (digit_not_separator d4 H4) as (_ & _ & _ & Eg & Ed).
  rewrite (groups_stop d4 z Eg), (decimals_stop d4 z Ed). reflexivity.
Qed.

Lemma remove_all_id p ds :
  Forall (fun c => p c = false) ds -> remove_all p ds = ds.
Proof.
  induction 1 as [|c r Hc Hr IH]; [reflexivity|].
  now rewrite (remove_all_keep p c r Hc), IH.
Qed.

Lemma replace_first_id a b ds :
  Forall (fun c => (c =? a) = false) ds -> replace_first a b ds = ds.
Proof.
  induction 1 as [|c r Hc Hr IH]; [reflexivity|].
  cbn [replace_first]. now rewrite Hc, IH.
Qed.

Lemma digits_Forall ds :
  forallb is_digit ds = true -> Forall (fun c => is_digit c = true) ds.
Proof. intros H. apply Forall_forall. now apply forallb_forall. Qed.

Lemma num_of_digits ds : forallb is_digit ds = true -> num_of ds = ds.
Proof.
  intros H. apply digits_Forall in H. unfold num_of.
  rewrite (remove_all_id is_space ds), (remove_all_id (N.eqb DOT) ds).
  - apply replace_first_id. eapply Forall_impl; [|exact H].
    intros c Hc. apply (digit_not_separator c Hc).
  - eapply Forall_impl; [|exact H].
    intros c Hc. apply (digit_not_separator c Hc).
  - eapply Forall_impl; [|exact H]. apply digit_not_space.
Qed.

(** X4. A number written with four or more digits in a row is cut
    after its third digit: the result is the number of the first three
    digits, whatever follows. *)
Theorem normalizer_cuts_ungrouped_digits :
  forall (pre : jsstring) (d1 d2 d3 d4 : code_unit) (rest : jsstring),
    no_digit pre ->
    is_digit d1 = true -> is_digit d2 = true -> is_digit d3 = true ->
    is_digit d4 = true ->
    normalizeNumberString (Some (pre ++ d1 :: d2 :: d3 :: d4 :: rest))
    = Some (of_Z (digits_val 10 [d1; d2; d3])).
Proof.
  intros pre d1 d2 d3 d4 rest Hpre H1 H2 H3 H4.
  rewrite normalize_unfold by (destruct pre; discriminate).
  destruct (cleaned_prefix pre d1 (d2 :: d3 :: d4 :: rest) Hpre H1)
    as (q & Hq & ->).
  rewrite (first_match_skip q _ Hq), (cleaned_digit d1 _ H1).
  rewrite !clean_tail_keep by (apply digit_not_space; assumption).
  cbn [NumberPattern.first_match].
  rewrite (match_here_four d1 d2 d3 d4 _ H1 H2 H3 H4).
  assert (Hd : forallb is_digit [d1; d2; d3] = true)
    by (simpl; now rewrite H1, H2, H3).
  assert (Hne : [d1; d2; d3] <> []) by discriminate.
  rewrite (num_of_digits _ Hd), (parseFloat_int _ Hne Hd).
  rewrite small_integers_finite; [reflexivity|].
  pose proof (digit_val_range d1 H1). pose proof (digit_val_range d2 H2).
  pose proof (digit_val_range d3 H3).
  unfold digits_val. simpl. lia.
Qed.

Lemma normalizer_cuts_ungrouped_digits_witness :
  normalizeNumberString (Some (js "EUR " ++ js "1234,56"))
  = Some (of_Z (digits_val 10 (js "123"))).
Proof.
  apply (normalizer_cuts_ungrouped_digits (js "EUR ") 49 50 51 52 (js ",56"));
    try reflexivity.
  apply no_digit_forallb. vm_compute. reflexivity.
Defined.

Lemma In_dropWhile p c s : In c (dropWhile p s) -> In c s.
Proof.
  induction s as [|x r IH]; simpl; [auto|].
  destruct (p x); [auto | intros H; exact H].
Qed.

Lemma In_collapse c s :
  forall b, In c (collapse_from b s) -> In c s \/ c = SPACE.
Proof.
  induction s as [|x r IH]; intros b; simpl; [auto|].
  destruct (is_space x); [destruct b|]; simpl; intros H.
  - destruct (IH _ H); auto.
  - destruct H as [<-|H]; [auto|]. destruct (IH _ H); auto.
  - destruct H as [<-|H]; [auto|]. destruct (IH _ H); auto.
Qed.

Lemma In_cleaned c s : In c (cleaned s) -> In c s \/ c = SPACE.
Proof.
  unfold cleaned, trim, collapse_spaces, remove_all. intros H.
  apply in_rev, In_dropWhile, in_rev, In_dropWhile, In_collapse in H.
  destruct H as [H|H]; [|auto]. apply filter_In in H. left. apply H.
Qed.

(** Line 21 without its last step. *)
Lemma strip_app a b :
  remove_all (N.eqb DOT) (remove_all is_space (a ++ b))
  = remove_all (N.eqb DOT) (remove_all is_space a)
    ++ remove_all (N.eqb DOT) (remove_all is_space b).
Proof. unfold remove_all. now rewrite !filter_app. Qed.

Lemma strip_digits ds :
  forallb is_digit ds = true ->
  remove_all (N.eqb DOT) (remove_all is_space ds) = ds.
Proof.
  intros H. apply digits_Forall in H.
  rewrite (remove_all_id is_space ds), (remove_all_id (N.eqb DOT) ds); auto.
  - eapply Forall_impl; [|exact H].
    intros c Hc. apply (digit_not_separator c Hc).
  - eapply Forall_impl; [|exact H]. apply digit_not_space.
Qed.

Lemma strip_group_sep c r :
  NumberPattern.is_group_sep c = true ->
  remove_all (N.eqb DOT) (remove_all is_space (c :: r))
  = remove_all (N.eqb DOT) (remove_all is_space r).
Proof.
  unfold NumberPattern.is_group_sep. intros H.
  destruct (is_space c) eqn:Es.
  - now rewrite (remove_all_drop is_space c r Es).
  - rewrite orb_false_r in H. apply N.eqb_eq in H. subst c.
    rewrite (remove_all_keep is_space DOT r Es).
    now rewrite (remove_all_drop (N.eqb DOT) DOT _ (N.eqb_refl DOT)).
Qed.

Lemma strip_thousands gs :
  thousands gs ->
  forallb is_digit (remove_all (N.eqb DOT) (remove_all is_space gs)) = true.
Proof.
  induction 1 as [|c d1 d2 d3 r Hc H1 H2 H3 Hr IH]; [reflexivity|].
  rewrite (strip_group_sep c _ Hc).
  change (d1 :: d2 :: d3 :: r) with ([d1; d2; d3] ++ r).
  rewrite strip_app, strip_digits by (simpl; now rewrite H1, H2, H3).
  simpl. now rewrite H1, H2, H3, IH.
Qed.

Lemma strip_fraction fs :
  fraction fs -> ~ In COMMA fs ->
  forallb is_digit (remove_all (N.eqb DOT) (remove_all is_space fs)) = true.
Proof.
  intros [->|(c & ds & -> & Hc & _ & Hd)] Hn; [reflexivity|].
  unfold NumberPattern.is_decimal_sep in Hc.
  apply orb_prop in Hc. destruct Hc as [Hc|Hc]; apply N.eqb_eq in Hc; subst c.
  - exfalso. apply Hn. now left.
  - rewrite (remove_all_keep is_space DOT ds eq_refl).
    rewrite (remove_all_drop (N.eqb DOT) DOT _ (N.eqb_refl DOT)).
    now rewrite strip_digits.
Qed.

(** Without a comma the text handed to [parseFloat] is a run of
    digits. *)
Lemma num_of_no_comma m :
  number_text m -> ~ In COMMA m ->
  num_of m <> [] /\ forallb is_digit (num_of m) = true.
Proof.
  intros (ds & gs & fs & -> & Hne & _ & Hd & Hg & Hf) Hn.
  assert (Hfs : ~ In COMMA fs).
  { intros H. apply Hn. apply in_or_app. right. apply in_or_app. now right. }
  pose proof (strip_thousands gs Hg) as Sg.
  pose proof (strip_fraction fs Hf Hfs) as Sf.
  assert (Hall : forallb is_digit
                   (remove_all (N.eqb DOT)
                      (remove_all is_space (ds ++ gs ++ fs))) = true).
  { rewrite !strip_app, (strip_digits ds Hd), !forallb_app.
    now rewrite Hd, Sg, Sf. }
  unfold num_of. rewrite replace_first_id.
  - split; [|exact Hall].
    rewrite !strip_app, (strip_digits ds Hd).
    destruct ds; [congruence | discriminate].
  - apply digits_Forall in Hall. eapply Forall_impl; [|exact Hall].
    intros c Hc. apply (digit_not_separator c Hc).
Qed.

Lemma strip_filter m :
  Forall (fun c => is_digit c = true \/ is_space c = true \/ c = DOT) m ->
  remove_all (N.eqb DOT) (remove_all is_space m) = filter is_digit m.
Proof.
  induction 1 as [|c r Hc Hr IH]; [reflexivity|].
  cbn [filter]. destruct Hc as [Hd | [Hs | ->]].
  - destruct (digit_not_separator c Hd) as (E & _).
    rewrite (remove_all_keep is_space c r (digit_not_space c Hd)).
    rewrite (remove_all_keep (N.eqb DOT) c _ E). now rewrite Hd, IH.
  - rewrite (remove_all_drop is_space c r Hs).
    destruct (is_digit c) eqn:Hd; [|exact IH].
    pose proof (digit_not_space c Hd). congruence.
  - rewrite (remove_all_keep is_space DOT r eq_refl).
    rewrite (remove_all_drop (N.eqb DOT) DOT _ (N.eqb_refl DOT)).
    exact IH.
Qed.

Lemma number_text_chars m :
  number_text m -> ~ In COMMA m ->
  Forall (fun c => is_digit c = true \/ is_space c = true \/ c = DOT) m.
Proof.
  intros (ds & gs & fs & -> & _ & _ & Hd & Hg & Hf) Hn.
  apply Forall_app. split; [|apply Forall_app; split].
  - apply digits_Forall in Hd. eapply Forall_impl; [|exact Hd]. auto.
  - clear Hn. induction Hg as [|c d1 d2 d3 r Hc H1 H2 H3 Hr IH];
      [constructor|].
    apply Forall_cons;
      [| apply Forall_cons; [now left |
         apply Forall_cons; [now left |
         apply Forall_cons; [now left | exact IH]]]].
    unfold NumberPattern.is_group_sep in Hc. apply orb_prop in Hc.
    destruct Hc as [Hc|Hc]; [apply N.eqb_eq in Hc|]; auto.
  - destruct Hf as [->|(c & fd & -> & Hc & _ & Hfd)]; [constructor|].
    apply Forall_cons.
    + unfold NumberPattern.is_decimal_sep in Hc. apply orb_prop in Hc.
      destruct Hc as [Hc|Hc]; apply N.eqb_eq in Hc; subst c; [|auto].
      exfalso. apply Hn. apply in_or_app. right. apply in_or_app. right.
      now left.
    + apply digits_Forall in Hfd. eapply Forall_impl; [|exact Hfd]. auto.
Qed.

(** Without a comma line 21 leaves the digits of the match. *)
Lemma num_of_filter m :
  number_text m -> ~ In COMMA m ->
  num_of m = filter is_digit m
  /\ remove_all (N.eqb DOT) (remove_all is_space m) = filter is_digit m.
Proof.
  intros Hm Hn.
  pose proof (strip_filter m (number_text_chars m Hm Hn)) as E.
  split; [|exact E]. unfold num_of. rewrite E.
  apply replace_first_id. apply Forall_forall. intros c Hc.
  apply filter_In in Hc. apply (digit_not_separator c (proj2 Hc)).
Qed.

(** X5. A text without a comma normalizes to a whole number: the
    number of the digits of the match, read without the dots and spaces
    between them. A dot is always taken as a thousands separator and
    never as a decimal point. *)
Theorem normalizer_without_comma_is_whole :
  forall (s : jsstring) (x : number),
    normalizeNumberString (Some s) = Some x ->
    ~ In COMMA s ->
    exists m,
      NumberPattern.first_match (cleaned s) = Some m
      /\ remove_all (N.eqb DOT) (remove_all is_space m) = filter is_digit m
      /\ filter is_digit m <> []
      /\ forallb is_digit (filter is_digit m) = true
      /\ x = of_Z (digits_val 10 (filter is_digit m)).
Proof.
  intros s x H Hn.
  destruct s as [|c r]; [discriminate|].
  rewrite normalize_unfold in H by discriminate.
  destruct (NumberPattern.first_match _) as [m|] eqn:E; [|discriminate].
  destruct (first_match_spec _ _ E) as [Hm (before & rest & Hs & _)].
  assert (Hnm : ~ In COMMA m).
  { intros Hin.
    assert (Hc : In COMMA (cleaned (c :: r))).
    { rewrite Hs. apply in_or_app. right. apply in_or_app. now left. }
    apply In_cleaned in Hc. destruct Hc as [Hc|Hc]; [auto | discriminate]. }
  destruct (num_of_no_comma m Hm Hnm) as [Hne Hd].
  destruct (num_of_filter m Hm Hnm) as [Ef Es].
  rewrite (parseFloat_int _ Hne Hd) in H.
  destruct (isFinite _); [|discriminate].
  injection H as <-. rewrite Ef in *. exists m. auto.
Qed.

Lemma normalizer_without_comma_is_whole_witness :
  (NumberPattern.first_match (cleaned (js "USD 12.50")) = Some (js "12.50")
   /\ filter is_digit (js "12.50") = js "1250"
   /\ normalizeNumberString (Some (js "USD 12.50")) = Some (of_Z 1250))
  /\ exists m,
       NumberPattern.first_match (cleaned (js "USD 12.50")) = Some m
       /\ remove_all (N.eqb DOT) (remove_all is_space m) = filter is_digit m
       /\ filter is_digit m <> []
       /\ forallb is_digit (filter is_digit m) = true
       /\ of_Z 1250 = of_Z (digits_val 10 (filter is_digit m)).
Proof.
  split; [repeat split; vm_compute; reflexivity|].
  apply (normalizer_without_comma_is_whole (js "USD 12.50") (of_Z 1250)).
  - vm_compute. reflexivity.
  - vm_compute. intuition discriminate.
Defined.

Lemma clean_tail_app_keep a b :
  Forall (fun c => is_space c = false) a ->
  clean_tail (a ++ b) = a ++ clean_tail b.
Proof.
  induction 1 as [|c r Hc Hr IH]; [reflexivity|].
  cbn [app]. now rewrite (clean_tail_keep c _ Hc), IH.
Qed.

Lemma dropWhile_snoc_cases p a c :
  dropWhile p (a ++ [c]) = [] \/ exists b, dropWhile p (a ++ [c]) = b ++ [c].
Proof.
  induction a as [|x a IH]; simpl.
  - destruct (p c); [auto | right; now exists []].
  - destruct (p x); [exact IH | right; now exists (x :: a)].
Qed.

Lemma trim_end_head c s :
  trim_end (c :: s) = [] \/ exists t, trim_end (c :: s) = c :: t.
Proof.
  unfold trim_end. simpl.
  destruct (dropWhile_snoc_cases is_space (rev s) c) as [->|(b & ->)];
    [auto|].
  right. exists (rev b). rewrite rev_app_distr. reflexivity.
Qed.

Lemma clean_tail_ends t :
  ends_number t ->
  match clean_tail t with
  | [] => True
  | c :: _ => is_digit c = false
  end.
Proof.
  destruct t as [|c r]; [intros _; exact I|].
  intros [Hd Hn]. unfold clean_tail.
  assert (E : N.eqb NNBSP c = false) by (apply N.eqb_neq; congruence).
  rewrite (remove_all_keep _ c r E). cbn [collapse_from].
  destruct (is_space c).
  - destruct (trim_end_head SPACE (collapse_from true
                (remove_all (N.eqb NNBSP) r))) as [->|(t & ->)];
      [exact I | reflexivity].
  - destruct (trim_end_head c (collapse_from false
                (remove_all (N.eqb NNBSP) r))) as [->|(t & ->)];
      [exact I | exact Hd].
Qed.

Lemma leading_digits_app ds :
  forall n r,
    forallb is_digit ds = true -> (List.length ds <= n)%nat ->
    match r with [] => True | c :: _ => is_digit c = false end ->
    NumberPattern.leading_digits n (ds ++ r) = (ds, r).
Proof.
  induction ds as [|d ds IH]; intros n r Hd Hn Hr.
  - destruct n, r; try reflexivity.
    cbn [app NumberPattern.leading_digits]. now rewrite Hr.
  - destruct n; [simpl in Hn; lia|].
    simpl in Hd. apply andb_prop in Hd. destruct Hd as [Hd1 Hd].
    cbn [app NumberPattern.leading_digits]. rewrite Hd1.
    rewrite (IH n r Hd); [reflexivity | simpl in Hn; lia | exact Hr].
Qed.

Lemma groups_dotted gs rest :
  Forall is_group gs ->
  NumberPattern.groups (dotted gs ++ COMMA :: rest)
  = (dotted gs, COMMA :: rest).
Proof.
  induction 1 as [|g gs [Hl Hd] Hgs IH]; [apply groups_stop; reflexivity|].
  destruct g as [|a [|b [|c [|x g]]]]; try discriminate.
  simpl in Hd. rewrite !andb_true_iff in Hd. destruct Hd as (Ha & Hb & Hc & _).
  unfold dotted in *. cbn [flat_map app NumberPattern.groups].
  rewrite Ha, Hb, Hc. cbn [NumberPattern.is_group_sep].
  change (NumberPattern.is_group_sep DOT) with true. cbn [andb].
  now rewrite IH.
Qed.

Lemma decimals_comma fs t :
  fs <> [] -> forallb is_digit fs = true ->
  match t with [] => True | c :: _ => is_digit c = false end ->
  NumberPattern.decimals (COMMA :: fs ++ t) = (COMMA :: fs, t).
Proof.
  intros Hne Hd Ht. unfold NumberPattern.decimals.
  change (NumberPattern.is_decimal_sep COMMA) with true. cbn iota.
  assert (E : span is_digit (fs ++ t) = (fs, t)).
  { destruct t as [|c t]; [rewrite app_nil_r; now apply span_all|].
    now apply span_app_stop. }
  rewrite E. destruct fs; [congruence | reflexivity].
Qed.

Lemma strip_dotted gs :
  Forall is_group gs ->
  remove_all (N.eqb DOT) (remove_all is_space (dotted gs)) = List.concat gs.
Proof.
  induction 1 as [|g gs [_ Hd] Hgs IH]; [reflexivity|].
  unfold dotted in *. cbn [flat_map List.concat].
  change ((DOT :: g) ++ flat_map (fun g0 => DOT :: g0) gs)
    with (DOT :: (g ++ flat_map (fun g0 => DOT :: g0) gs)).
  rewrite (strip_group_sep DOT _ eq_refl), strip_app, (strip_digits g Hd).
  now rewrite IH.
Qed.

Lemma concat_groups_digits gs :
  Forall is_group gs -> forallb is_digit (List.concat gs) = true.
Proof.
  induction 1 as [|g gs [_ Hd] Hgs IH]; [reflexivity|].
  simpl. now rewrite forallb_app, Hd, IH.
Qed.

Lemma replace_first_app a b x y :
  Forall (fun c => (c =? a) = false) x ->
  replace_first a b (x ++ a :: y) = x ++ b :: y.
Proof.
  induction 1 as [|c r Hc Hr IH]; cbn [app replace_first].
  - now rewrite N.eqb_refl.
  - now rewrite Hc, IH.
Qed.

Lemma dotted_no_space gs :
  Forall is_group gs -> Forall (fun c => is_space c = false) (dotted gs).
Proof.
  induction 1 as [|g gs [_ Hd] Hgs IH]; [constructor|].
  unfold dotted in *. cbn [flat_map].
  constructor; [reflexivity|]. apply Forall_app. split; [|exact IH].
  apply digits_Forall in Hd. eapply Forall_impl; [|exact Hd].
  apply digit_not_space.
Qed.

(** X6. A number in the German format (one to three digits, groups of
    three digits after dots, a comma and the decimals), whatever
    digit-free text stands before it and whatever follows it without
    continuing it, normalizes to its decimal value, or to [null] when
    that value is beyond the range of a number. *)
Theorem normalizer_reads_german_format :
  forall (pre ds : jsstring) (gs : list jsstring) (fs t : jsstring),
    no_digit pre ->
    ds <> [] -> (List.length ds <= 3)%nat -> forallb is_digit ds = true ->
    Forall is_group gs ->
    fs <> [] -> forallb is_digit fs = true ->
    ends_number t ->
    normalizeNumberString (Some (pre ++ ds ++ dotted gs ++ COMMA :: fs ++ t))
    = if isFinite (decimal false (digits_val 10 (ds ++ List.concat gs ++ fs))
                           (- Z.of_nat (List.length fs)))
      then Some (decimal false (digits_val 10 (ds ++ List.concat gs ++ fs))
                         (- Z.of_nat (List.length fs)))
      else None.
Proof.
  intros pre ds gs fs t Hpre Hne Hlen Hd Hgs Hfne Hfd Ht.
  destruct ds as [|d ds']; [congruence|].
  assert (Hd1 : is_digit d = true)
    by (simpl in Hd; now apply andb_prop in Hd).
  rewrite normalize_unfold by (destruct pre; discriminate).
  cbn [app].
  destruct (cleaned_prefix pre d (ds' ++ dotted gs ++ COMMA :: fs ++ t)
              Hpre Hd1) as (q & Hq & ->).
  rewrite (first_match_skip q _ Hq), (cleaned_digit d _ Hd1).
  assert (Hkeep : clean_tail (ds' ++ dotted gs ++ COMMA :: fs ++ t)
                  = ds' ++ dotted gs ++ COMMA :: fs ++ clean_tail t).
  { replace (ds' ++ dotted gs ++ COMMA :: fs ++ t)
      with ((ds' ++ dotted gs ++ COMMA :: fs) ++ t)
      by (now rewrite <- !app_assoc).
    rewrite clean_tail_app_keep; [now rewrite <- !app_assoc|].
    apply Forall_app. split.
    - simpl in Hd. apply andb_prop in Hd. destruct Hd as [_ Hd].
      apply digits_Forall in Hd. eapply Forall_impl; [|exact Hd].
      apply digit_not_space.
    - apply Forall_app. split; [now apply dotted_no_space|].
      constructor; [reflexivity|].
      apply digits_Forall in Hfd. eapply Forall_impl; [|exact Hfd].
      apply digit_not_space. }
  rewrite Hkeep.
  pose proof (clean_tail_ends t Ht) as Hend.
  set (t' := clean_tail t) in *.
  assert (Hm : NumberPattern.match_here
                 ((d :: ds') ++ dotted gs ++ COMMA :: fs ++ t')
               = Some ((d :: ds') ++ dotted gs ++ COMMA :: fs)).
  { unfold NumberPattern.match_here.
    rewrite (leading_digits_app (d :: ds') 3 _ Hd Hlen).
    - rewrite (groups_dotted gs _ Hgs).
      now rewrite (decimals_comma fs t' Hfne Hfd Hend).
    - destruct gs as [|g gs]; reflexivity. }
  cbn [app] in Hm. cbn [NumberPattern.first_match]. rewrite Hm.
  assert (Hnum : num_of (d :: ds' ++ dotted gs ++ COMMA :: fs)
                 = ((d :: ds') ++ List.concat gs) ++ DOT :: fs).
  { unfold num_of.
    change (d :: ds' ++ dotted gs ++ COMMA :: fs)
      with ((d :: ds') ++ dotted gs ++ COMMA :: fs).
    rewrite !strip_app, (strip_digits _ Hd), (strip_dotted gs Hgs).
    change (COMMA :: fs) with ([COMMA] ++ fs).
    rewrite strip_app, (strip_digits fs Hfd).
    change (remove_all (N.eqb DOT) (remove_all is_space [COMMA]))
      with [COMMA].
    rewrite app_assoc.
    apply (replace_first_app COMMA DOT ((d :: ds') ++ List.concat gs) fs).
    apply Forall_app. split.
    - apply digits_Forall in Hd. eapply Forall_impl; [|exact Hd].
      intros c Hc. apply (digit_not_separator c Hc).
    - pose proof (concat_groups_digits gs Hgs) as Hc.
      apply digits_Forall in Hc. eapply Forall_impl; [|exact Hc].
      intros c Hc'. apply (digit_not_separator c Hc'). }
  rewrite Hnum.
  rewrite parseFloat_frac; try assumption.
  - now rewrite <- app_assoc.
  - discriminate.
  - now rewrite forallb_app, Hd, (concat_groups_digits gs Hgs).
Qed.

Lemma normalizer_reads_german_format_witness :
  normalizeNumberString
    (Some (js "ab " ++ js "12" ++ dotted [js "345"; js "678"]
           ++ COMMA :: js "90" ++ SPACE :: [EURO]))
  = Some (decimal false 1234567890 (-2)).
Proof.
  apply (normalizer_reads_german_format (js "ab ") (js "12")
           [js "345"; js "678"] (js "90") (SPACE :: [EURO])).
  - apply no_digit_forallb. vm_compute. reflexivity.
  - discriminate.
  - simpl. lia.
  - reflexivity.
  - repeat constructor.
  - discriminate.
  - reflexivity.
  - split; [reflexivity | discriminate].
Defined.

(* ================================================================== *)
(** ** The heuristic search *)
(* ================================================================== *)

Lemma prefixb_spec p s : prefixb p s = true <-> exists b, s = p ++ b.
Proof.
  revert s. induction p as [|a p IH]; intros s; simpl.
  - split; [intros _; now exists s | reflexivity].
  - destruct s as [|c s].
    + split; [discriminate | intros [b Hb]; discriminate].
    + rewrite andb_true_iff, N.eqb_eq, IH. split.
      * intros [-> [b ->]]. now exists b.
      * intros [b Hb]. injection Hb as -> ->. split; [reflexivity|now exists b].
Qed.

Lemma includes_spec s k :
  includes s k = true <-> exists a b, s = a ++ k ++ b.
Proof.
  induction s as [|c s IH]; simpl.
  - rewrite orb_false_r, prefixb_spec. split.
    + intros [b Hb]. now exists [], b.
    + intros (a & b & H). destruct a; [now exists b | discriminate].
  - rewrite orb_true_iff, prefixb_spec, IH. split.
    + intros [[b Hb]|(a & b & ->)]; [now exists [], b | now exists (c :: a), b].
    + intros (a & b & H). destruct a as [|x a].
      * left. now exists b.
      * right. injection H as _ ->. now exists a, b.
Qed.

(** A text that holds a longer keyword holds every part of it. *)
Lemma includes_part s x k y :
  includes s (x ++ k ++ y) = true -> includes s k = true.
Proof.
  rewrite !includes_spec. intros (a & b & ->).
  exists (a ++ x), (y ++ b). now rewrite <- !app_assoc.
Qed.

Lemma first_match_nonempty t num :
  NumberPattern.first_match t = Some num ->
  Heuristic.returned (Some num) = Some num.
Proof.
  intros H. destruct (first_match_spec _ _ H) as [Hn _].
  destruct (number_text_head num Hn) as (d & r & -> & _). reflexivity.
Qed.

Lemma returned_findNumberInText t :
  Heuristic.returned (Heuristic.findNumberInText t)
  = Heuristic.findNumberInText t.
Proof.
  unfold Heuristic.findNumberInText.
  destruct (NumberPattern.first_match t) as [num|] eqn:E; [|reflexivity].
  exact (first_match_nonempty t num E).
Qed.

(** X7. [findNumberInText] returns [null] exactly for a text without a
    digit. What it returns otherwise is a part of the text that begins
    at the first digit of the text, has the shape of the pattern and is
    not empty, so that the test of lines 101 and 111 never rejects
    it. *)
Theorem findNumberInText_spec :
  forall t : jsstring,
    (Heuristic.findNumberInText t = None <-> no_digit t)
    /\ Heuristic.returned (Heuristic.findNumberInText t)
       = Heuristic.findNumberInText t
    /\ forall num,
         Heuristic.findNumberInText t = Some num ->
         number_text num
         /\ exists before rest, t = before ++ num ++ rest /\ no_digit before.
Proof.
  intros t. split; [|split].
  - unfold Heuristic.findNumberInText.
    rewrite first_match_none. symmetry. apply no_digit_forallb.
  - apply returned_findNumberInText.
  - intros num H. destruct (first_match_spec _ _ H) as [Hn (b & r & Ht & Hb)].
    split; [exact Hn|]. exists b, r. split; [exact Ht|].
    now apply no_digit_forallb.
Qed.

Lemma keyword_loop_none kws low t :
  Heuristic.findNumberInText t = None ->
  Heuristic.keyword_loop kws low t = None.
Proof.
  intros H. induction kws as [|kw rest IH]; [reflexivity|].
  cbn [Heuristic.keyword_loop]. rewrite H. cbn [Heuristic.returned].
  rewrite IH. now destruct (includes low kw).
Qed.

Lemma keyword_loop_spec kws low t :
  Heuristic.keyword_loop kws low t
  = if existsb (includes low) kws then Heuristic.findNumberInText t else None.
Proof.
  destruct (Heuristic.findNumberInText t) as [num|] eqn:E.
  - induction kws as [|kw rest IH]; [reflexivity|].
    cbn [Heuristic.keyword_loop existsb].
    destruct (includes low kw); [|exact IH].
    rewrite E. now rewrite <- E, returned_findNumberInText, E.
  - rewrite (keyword_loop_none kws low t E). now destruct (existsb _ kws).
Qed.

Lemma keywords_two low :
  existsb (includes low) Heuristic.keywords
  = includes low (js "ankauf") || includes low (js "kaufpreis").
Proof.
  unfold Heuristic.keywords. cbn [existsb].
  destruct (includes low (js "ankauf")) eqn:A; [reflexivity|].
  assert (N1 : includes low (js "ankaufspreis") = false).
  { destruct (includes low (js "ankaufspreis")) eqn:E; [|reflexivity].
    rewrite <- A. symmetry.
    exact (includes_part low [] (js "ankauf") (js "spreis") E). }
  assert (N2 : includes low (js "ankaufs") = false).
  { destruct (includes low (js "ankaufs")) eqn:E; [|reflexivity].
    rewrite <- A. symmetry.
    exact (includes_part low [] (js "ankauf") (js "s") E). }
  assert (N3 : includes low (js "ankaufswert") = false).
  { destruct (includes low (js "ankaufswert")) eqn:E; [|reflexivity].
    rewrite <- A. symmetry.
    exact (includes_part low [] (js "ankauf") (js "swert") E). }
  rewrite N1, N2, N3. cbn [orb]. now rewrite orb_false_r.
Qed.

(** X8. Of the five keywords only "ankauf" and "kaufpreis" decide: an
    element is a hit of the first pass exactly when its text, in lower
    case, holds one of these two and the text has a digit, and the hit
    is then the first number of the text. *)
Theorem keyword_hit_spec :
  forall el : Element,
    Heuristic.keyword_hit el
    = if includes (toLowerCase (Heuristic.element_text el)) (js "ankauf")
         || includes (toLowerCase (Heuristic.element_text el)) (js "kaufpreis")
      then Heuristic.findNumberInText (Heuristic.element_text el)
      else None.
Proof.
  intros el. unfold Heuristic.keyword_hit.
  rewrite <- keywords_two.
  destruct (Heuristic.element_text el) as [|c t] eqn:E; [reflexivity|].
  apply keyword_loop_spec.
Qed.

Lemma first_hit_inv hit els num :
  Heuristic.first_hit hit els = Some num ->
  exists el, In el els /\ hit el = Some num.
Proof.
  induction els as [|el rest IH]; simpl; [discriminate|].
  destruct (hit el) as [n|] eqn:E.
  - intros H. injection H as <-. exists el. auto.
  - intros H. destruct (IH H) as (el' & Hin & Hh). exists el'. auto.
Qed.

Lemma first_hit_none hit els :
  Heuristic.first_hit hit els = None -> Forall (fun e => hit e = None) els.
Proof.
  induction els as [|el rest IH]; simpl; [constructor|].
  destruct (hit el) eqn:E; [discriminate|]. intros H. constructor; auto.
Qed.

Lemma keyword_hit_inv el num :
  Heuristic.keyword_hit el = Some num ->
  has_keyword el = true
  /\ Heuristic.findNumberInText (Heuristic.element_text el) = Some num.
Proof.
  unfold Heuristic.keyword_hit, has_keyword.
  destruct (Heuristic.element_text el) as [|c t]; [discriminate|].
  rewrite keyword_loop_spec.
  destruct (existsb _ Heuristic.keywords); [auto | discriminate].
Qed.

Lemma euro_hit_inv el num :
  Heuristic.euro_hit el = Some num ->
  includes (Heuristic.element_text el) [EURO] = true
  /\ Heuristic.findNumberInText (Heuristic.element_text el) = Some num.
Proof.
  unfold Heuristic.euro_hit.
  destruct (Heuristic.element_text el) as [|c t]; [discriminate|].
  destruct (includes (c :: t) [EURO]); [|discriminate].
  rewrite returned_findNumberInText. auto.
Qed.

(** Where a price of the heuristic comes from. *)
Lemma tryHeuristic_inv :
  forall (pg : Page) (x : number),
    tryHeuristic pg = Some x ->
    exists els el num,
      body pg = Resolves els /\ In el els
      /\ Heuristic.findNumberInText (Heuristic.element_text el) = Some num
      /\ normalizeNumberString (Some num) = Some x
      /\ (has_keyword el = true
          \/ includes (Heuristic.element_text el) [EURO] = true
             /\ Forall (fun e => Heuristic.keyword_hit e = None) els).
Proof.
  intros pg x. unfold tryHeuristic, Heuristic.evaluate.
  destruct (body pg) as [els|]; [|discriminate].
  destruct (Heuristic.first_hit Heuristic.keyword_hit els) as [num|] eqn:K.
  - destruct num as [|c num]; [discriminate|]. intros H.
    destruct (first_hit_inv _ _ _ K) as (el & Hin & Hh).
    destruct (keyword_hit_inv el _ Hh) as [Hk Hf].
    exists els, el, (c :: num). auto 10.
  - destruct (Heuristic.first_hit Heuristic.euro_hit els) as [num|] eqn:E;
      [|discriminate].
    destruct num as [|c num]; [discriminate|]. intros H.
    destruct (first_hit_inv _ _ _ E) as (el & Hin & Hh).
    destruct (euro_hit_inv el _ Hh) as [He Hf].
    exists els, el, (c :: num).
    repeat split; auto. right. split; [exact He|].
    exact (first_hit_none _ _ K).
Qed.

(** X9. A price found by the heuristic is the normalized first number
    of one element of the body, and that element holds a keyword or,
    only when no element of the whole body is a keyword hit, a euro
    sign. *)
Theorem tryHeuristic_source :
  forall (pg : Page) (x : number),
    tryHeuristic pg = Some x ->
    exists els el num,
      body pg = Resolves els /\ In el els
      /\ Heuristic.findNumberInText (Heuristic.element_text el) = Some num
      /\ normalizeNumberString (Some num) = Some x
      /\ (has_keyword el = true
          \/ includes (Heuristic.element_text el) [EURO] = true
             /\ Forall (fun e => Heuristic.keyword_hit e = None) els).
Proof. exact tryHeuristic_inv. Qed.

Lemma tryHeuristic_source_witness :
  exists els el num,
    body (with_body [text_element (js "12,50 " ++ [EURO]);
                     text_element (js "Ankauf: 7")] blank_page)
    = Resolves els
    /\ In el els
    /\ Heuristic.findNumberInText (Heuristic.element_text el) = Some num
    /\ normalizeNumberString (Some num) = Some (of_Z 7)
    /\ (has_keyword el = true
        \/ includes (Heuristic.element_text el) [EURO] = true
           /\ Forall (fun e => Heuristic.keyword_hit e = None) els).
Proof.
  apply (tryHeuristic_source
           (with_body [text_element (js "12,50 " ++ [EURO]);
                       text_element (js "Ankauf: 7")] blank_page)
           (of_Z 7)).
  vm_compute. reflexivity.
Defined.

(* ================================================================== *)
(** ** Metadata and structured data: first in document order *)
(* ================================================================== *)

Lemma meta_condition_price low :
  existsb (includes low) META_KEYS = includes low (js "price").
Proof.
  unfold META_KEYS. cbn [existsb].
  destruct (includes low (js "price")) eqn:P; [reflexivity|].
  assert (N1 : includes low (js "og:price") = false).
  { destruct (includes low (js "og:price")) eqn:E; [|reflexivity].
    rewrite <- P. symmetry.
    exact (includes_part low (js "og:") (js "price") [] E). }
  assert (N2 : includes low (js "product:price:amount") = false).
  { destruct (includes low (js "product:price:amount")) eqn:E; [|reflexivity].
    rewrite <- P. symmetry.
    exact (includes_part low (js "product:") (js "price") (js ":amount") E). }
  now rewrite N1, N2.
Qed.

(** X10. The three substrings of line 70 come to one test: a [meta]
    element is looked at exactly when its name, in lower case, holds
    "price". *)
Theorem meta_condition_is_price :
  forall low : jsstring,
    existsb (includes low) META_KEYS = includes low (js "price").
Proof. exact meta_condition_price. Qed.

(** X11. The [meta] elements are tried in document order and the first
    whose content normalizes wins: what follows it is not looked at,
    and elements that give nothing leave the rest of the scan as it
    is. *)
Theorem scan_metas_app :
  forall a b : list MetaElement,
    scan_metas (a ++ b)
    = match scan_metas a with
      | Some v => Some v
      | None => scan_metas b
      end.
Proof.
  intros a b. induction a as [|m a IH]; [reflexivity|].
  cbn [app scan_metas].
  destruct (meta_name m) as [[|c n]|]; try exact IH.
  destruct (attr_content m) as [[|d content]|]; try exact IH.
  destruct (existsb _ META_KEYS); [|exact IH].
  match goal with
  | |- context [normalizeNumberString ?t] =>
      destruct (normalizeNumberString t); [reflexivity | exact IH]
  end.
Qed.

(** Where a price of the metadata comes from. *)
Lemma tryMeta_inv :
  forall (pg : Page) (x : number),
    tryMeta pg = Some x ->
    exists ms m nm content,
      metas pg = Resolves ms /\ In m ms
      /\ meta_name m = Some nm /\ attr_content m = Some content
      /\ includes (toLowerCase nm) (js "price") = true
      /\ normalizeNumberString (Some content) = Some x.
Proof.
  intros pg x. unfold tryMeta.
  destruct (metas pg) as [ms|]; [|discriminate].
  intros H. exists ms.
  induction ms as [|m ms IH]; [discriminate|].
  cbn [scan_metas] in H.
  assert (Hrest : scan_metas ms = Some x ->
                  exists m0 nm content,
                    In m0 (m :: ms) /\ meta_name m0 = Some nm
                    /\ attr_content m0 = Some content
                    /\ includes (toLowerCase nm) (js "price") = true
                    /\ normalizeNumberString (Some content) = Some x).
  { intros H'. destruct (IH H') as (m0 & nm & content & _ & Hin & Hrest).
    exists m0, nm, content. split; [now right | exact Hrest]. }
  destruct (meta_name m) as [[|c n]|] eqn:En;
    [ destruct (Hrest H) as (m0 & nm & ct & R); exists m0, nm, ct; tauto | |
      destruct (Hrest H) as (m0 & nm & ct & R); exists m0, nm, ct; tauto ].
  destruct (attr_content m) as [[|d content]|] eqn:Ec;
    [ destruct (Hrest H) as (m0 & nm & ct & R); exists m0, nm, ct; tauto | |
      destruct (Hrest H) as (m0 & nm & ct & R); exists m0, nm, ct; tauto ].
  rewrite meta_condition_price in H.
  destruct (includes (toLowerCase (c :: n)) (js "price")) eqn:Ep;
    [| destruct (Hrest H) as (m0 & nm & ct & R); exists m0, nm, ct; tauto ].
  match type of H with
  | context [normalizeNumberString ?t] =>
      destruct (normalizeNumberString t) as [y|] eqn:Ey
  end.
  - injection H as <-. exists m, (c :: n), (d :: content).
    repeat split; auto. now left.
  - destruct (Hrest H) as (m0 & nm & ct & R). exists m0, nm, ct. tauto.
Qed.

(** X19. A price found in the metadata is the normalized content of
    one [meta] element whose name (the [name] attribute, or [property]
    when [name] is absent or empty) holds "price" in some case; no other
    element is ever the source. *)
Theorem tryMeta_source :
  forall (pg : Page) (x : number),
    tryMeta pg = Some x ->
    exists ms m nm content,
      metas pg = Resolves ms /\ In m ms
      /\ meta_name m = Some nm /\ attr_content m = Some content
      /\ includes (toLowerCase nm) (js "price") = true
      /\ normalizeNumberString (Some content) = Some x.
Proof. exact tryMeta_inv. Qed.

Lemma tryMeta_source_witness :
  exists ms m nm content,
    metas {| query := fun _ => Rejects; ld_json := Resolves [];
             metas := Resolves
               [{| attr_name := Some (js "description");
                   attr_property := Some (js "og:price");
                   attr_content := Some (js "12,50") |};
                {| attr_name := None;
                   attr_property := Some (js "product:PRICE:amount");
                   attr_content := Some (js "99,99") |}];
             body := Resolves [] |} = Resolves ms
    /\ In m ms
    /\ meta_name m = Some nm /\ attr_content m = Some content
    /\ includes (toLowerCase nm) (js "price") = true
    /\ normalizeNumberString (Some content) = Some n99_99.
Proof.
  apply (tryMeta_source
           {| query := fun _ => Rejects; ld_json := Resolves [];
              metas := Resolves
                [{| attr_name := Some (js "description");
                    attr_property := Some (js "og:price");
                    attr_content := Some (js "12,50") |};
                 {| attr_name := None;
                    attr_property := Some (js "product:PRICE:amount");
                    attr_content := Some (js "99,99") |}];
              body := Resolves [] |} n99_99).
  vm_compute. reflexivity.
Defined.

Lemma scan_items_app a b :
  scan_items (a ++ b)
  = match scan_items a with
    | Continue => scan_items b
    | done => done
    end.
Proof.
  induction a as [|item a IH]; [reflexivity|].
  cbn [app scan_items]. destruct (item_price item); auto.
Qed.

(** X12. The scripts are scanned in document order and the first
    price wins: scripts that do not parse, that hold no price or in
    which the coercion throws leave the scan of the later scripts as it
    is. *)
Theorem scan_scripts_app :
  forall a b : list (option json),
    scan_scripts (a ++ b)
    = match scan_scripts a with
      | Some v => Some v
      | None => scan_scripts b
      end.
Proof.
  intros a b. induction a as [|script a IH]; [reflexivity|].
  cbn [app scan_scripts]. destruct script as [parsed|]; [|exact IH].
  destruct (scan_items _); [reflexivity | exact IH | exact IH].
Qed.

Lemma price_fields_without_offers item :
  get (Some item) OFFERS = None -> price_fields item = [].
Proof.
  intros H. unfold price_fields, first_offer. rewrite H. reflexivity.
Qed.

(** X13. Only the items at the top of a script are looked at: when
    none of them has an own property [offers], the strategy finds
    nothing, whatever is nested inside them. *)
Theorem tryJSONLD_top_level_only :
  forall (pg : Page) (data : list (option json)),
    ld_json pg = Resolves data ->
    Forall (fun item => get (Some item) OFFERS = None)
           (flat_map script_items data) ->
    tryJSONLD pg = None.
Proof.
  intros pg data Hd Hall.
  destruct (tryJSONLD pg) as [x|] eqn:E; [|reflexivity].
  destruct (tryJSONLD_inv _ _ E) as (data' & Hd' & p & Hin & _).
  rewrite Hd in Hd'. injection Hd' as <-.
  unfold document_prices in Hin. apply in_flat_map in Hin.
  destruct Hin as (item & Hitem & Hp).
  rewrite Forall_forall in Hall.
  rewrite (price_fields_without_offers item (Hall item Hitem)) in Hp.
  destruct Hp.
Qed.

Lemma tryJSONLD_top_level_only_witness :
  tryJSONLD
    (with_ld_json
       [Some (JObj [(js "@graph", JArr [offer_with_price (JNum n1050)])])]
       blank_page)
  = None.
Proof.
  apply (tryJSONLD_top_level_only _
           [Some (JObj [(js "@graph", JArr [offer_with_price (JNum n1050)])])]).
  - reflexivity.
  - repeat constructor.
Defined.

(* ================================================================== *)
(** ** The shape of a result *)
(* ================================================================== *)

(** X14. The notes of every result end with exactly one of the tags
    "selector", "json-ld", "meta", "heuristic" and "not-found"; [ok] is
    false exactly when that tag is "not-found". Before it stand only
    the note of a failed navigation and "selector-not-found", in this
    order, so there are never more than three notes. *)
Theorem notes_shape :
  forall (v : Visit) (coin : Coin),
    In (last (r_notes (scrape v coin)) []) FINAL_TAGS
    /\ (ok (scrape v coin) = false
        <-> last (r_notes (scrape v coin)) [] = js "not-found")
    /\ removelast (r_notes (scrape v coin))
       = navigation_notes v ++ selector_notes (page v) coin
    /\ (List.length (r_notes (scrape v coin)) <= 3)%nat.
Proof.
  intros v coin. unfold selector_notes, FINAL_TAGS.
  chain_cases v coin; cbn [last removelast List.length];
    (split; [simpl; tauto|]);
    (split; [split; intros H; try reflexivity; try discriminate H;
             vm_compute in H; discriminate H|]);
    (split; [reflexivity | lia]).
Qed.

Lemma trim_spaces_not_configured coin s :
  selector coin = Some s -> forallb is_space s = true ->
  selector_configured coin = false.
Proof.
  intros Hs Hw. unfold selector_configured. rewrite Hs.
  destruct s; [reflexivity|]. now rewrite (trim_spaces _ Hw).
Qed.

(** X15. A selector that is empty or holds only white space counts as
    no selector: the selector strategy is not called, no
    "selector-not-found" is noted, and price and notes are those of the
    same coin without a selector. *)
Theorem blank_selector_is_no_selector :
  forall (v : Visit) (coin : Coin) (s : jsstring),
    selector coin = Some s ->
    forallb is_space s = true ->
    iteration v coin = iteration v (without_selector coin)
    /\ ~ In Selector (map fst (calls (iteration v coin))).
Proof.
  intros v coin s Hs Hw.
  pose proof (trim_spaces_not_configured coin s Hs Hw) as Hc.
  split.
  - unfold iteration, chain, step_selector. now rewrite Hc.
  - destruct (iteration_spec v coin) as (-> & _).
    unfold planned. rewrite Hc. cbn [app map attempt].
    destruct (tryJSONLD (page v)); destruct (tryMeta (page v));
      destruct (tryHeuristic (page v)); simpl;
      intuition discriminate.
Qed.

Lemma blank_selector_is_no_selector_witness :
  iteration (loaded selector_page)
            {| id := js "x"; name := js "x"; url := js "u"; metal := None;
               fineInGrams := None; selector := Some (js "  ") |}
  = iteration (loaded selector_page)
              (without_selector
                 {| id := js "x"; name := js "x"; url := js "u";
                    metal := None; fineInGrams := None;
                    selector := Some (js "  ") |})
  /\ ~ In Selector
         (map fst (calls (iteration (loaded selector_page)
            {| id := js "x"; name := js "x"; url := js "u"; metal := None;
               fineInGrams := None; selector := Some (js "  ") |}))).
Proof.
  apply (blank_selector_is_no_selector (loaded selector_page) _ (js "  "));
    reflexivity.
Defined.

(** X16. A price that is negative, [NaN] or infinite can only come
    from structured data: the last note of such a result is
    "json-ld". *)
Theorem odd_price_is_from_structured_data :
  forall (v : Visit) (coin : Coin) (x : number),
    price_eur (scrape v coin) = Some x ->
    nonneg_finite x = false ->
    last (r_notes (scrape v coin)) [] = js "json-ld".
Proof.
  intros v coin x.
  assert (Hs : forall y, trySelector (page v) (selector_text coin) = Some y ->
                         nonneg_finite y = true).
  { intros y Hy. destruct (trySelector_normalized _ _ _ Hy) as (t & Ht).
    exact (normalize_nonneg _ _ Ht). }
  assert (Hm : forall y, tryMeta (page v) = Some y -> nonneg_finite y = true).
  { intros y Hy. destruct (tryMeta_normalized _ _ Hy) as (t & Ht).
    exact (normalize_nonneg _ _ Ht). }
  assert (Hh : forall y, tryHeuristic (page v) = Some y ->
                         nonneg_finite y = true).
  { intros y Hy. destruct (tryHeuristic_normalized _ _ Hy) as (t & Ht).
    exact (normalize_nonneg _ _ Ht). }
  revert Hs Hm Hh.
  chain_cases v coin; cbn [last]; intros Hs Hm Hh Hx Hbad;
    try discriminate Hx; injection Hx as ->; try reflexivity;
    first [ rewrite (Hs _ eq_refl) in Hbad
          | rewrite (Hm _ eq_refl) in Hbad
          | rewrite (Hh _ eq_refl) in Hbad ];
    discriminate Hbad.
Qed.

Lemma odd_price_is_from_structured_data_witness :
  last (r_notes (scrape (loaded (with_ld_json
                                   [Some (offer_with_price (JStr (js "-3")))]
                                   blank_page)) coin_plain)) []
  = js "json-ld".
Proof.
  apply (odd_price_is_from_structured_data _ _ (decimal true 3 0));
    vm_compute; reflexivity.
Defined.

(** X17. The loop handles the coins one after the other: the results
    of a list of coins followed by another are the results of the
    first list, unchanged by what follows, and then those of the second
    list from the navigation the first list ended at. *)
Theorem main_loop_app :
  forall (browser : Browser) (a b : list Coin) (n : nat)
         (results : list ScrapeResult),
    main_loop browser n (a ++ b) results
    = main_loop browser (n + List.length a)%nat b
        (main_loop browser n a results).
Proof.
  intros browser a b. induction a as [|coin a IH]; intros n results; simpl.
  - now rewrite Nat.add_0_r.
  - rewrite IH. now rewrite Nat.add_succ_r.
Qed.

(* ================================================================== *)
(** ** The selector strategy *)
(* ================================================================== *)

(** X18. When the [innerText] of the selected element is not empty but
    only white space, [textContent] is not consulted and the strategy
    finds nothing, whatever [textContent] holds. *)
Theorem trySelector_blank_innerText :
  forall (pg : Page) (sel : jsstring) (el : Element) (ws : jsstring),
    query pg sel = Resolves el ->
    innerText el = Some ws -> ws <> [] -> forallb is_space ws = true ->
    trySelector pg sel = None.
Proof.
  intros pg sel el ws Hq Hi Hne Hw.
  unfold trySelector. rewrite Hq. unfold text_or. rewrite Hi.
  destruct ws as [|c r]; [congruence|].
  now rewrite (trim_spaces _ Hw).
Qed.

Lemma trySelector_blank_innerText_witness :
  trySelector
    (with_element (js ".price")
       {| innerText := Some (js " "); textContent := Some (js "1.234,56") |}
       blank_page)
    (js ".price")
  = None.
Proof.
  apply (trySelector_blank_innerText _ _
           {| innerText := Some (js " ");
              textContent := Some (js "1.234,56") |} (js " "));
    try reflexivity.
  discriminate.
Defined.

(* ================================================================== *)
(** ** Where a price comes from, strategy by strategy *)
(* ================================================================== *)

Lemma trySelector_inv pg sel x :
  trySelector pg sel = Some x ->
  exists el,
    query pg sel = Resolves el
    /\ normalizeNumberString
         (Some (trim (text_or (innerText el) (textContent el)))) = Some x.
Proof.
  unfold trySelector. destruct (query pg sel) as [el|]; [|discriminate].
  intros H. exists el. auto.
Qed.

(** Structured data whose price is the string "-3": the result carries
    the finite number -3 as its price, which no text normalizes to. *)
Lemma jsonld_price_not_normalized :
  price_eur (scrape (loaded (with_ld_json
                               [Some (offer_with_price (JStr (js "-3")))]
                               blank_page)) coin_plain)
  = Some (decimal true 3 0)
  /\ isFinite (decimal true 3 0) = true
  /\ (forall txt, normalizeNumberString txt <> Some (decimal true 3 0))
  /\ ~ price_is_normalized
         (scrape (loaded (with_ld_json
                            [Some (offer_with_price (JStr (js "-3")))]
                            blank_page)) coin_plain).
Proof.
  assert (Hno : forall txt,
             normalizeNumberString txt <> Some (decimal true 3 0)).
  { intros txt H. apply normalize_nonneg in H. discriminate H. }
  split; [vm_compute; reflexivity|].
  split; [vm_compute; reflexivity|].
  split; [exact Hno|].
  intros H. destruct (H (decimal true 3 0)) as [_ (txt & Ht)];
    [vm_compute; reflexivity|].
  exact (Hno _ Ht).
Qed.

(** Structured data in machine format: the price is the coercion of
    the string, not what the normalizer makes of it. *)
Example jsonld_price_bypasses_normalizer :
  tryJSONLD (with_ld_json [Some (offer_with_price (JStr (js "1234.56")))]
                          blank_page) = Some n1234_56
  /\ normalizeNumberString (Some (js "1234.56")) = Some n123.
Proof. split; vm_compute; reflexivity. Qed.

(** C2 (amended). A price of a result was returned by the call of one
    strategy. If that is the Selector, Metadata or Heuristic strategy,
    the price is finite and is what the normalizer returns on the text
    that strategy extracted from the page: the trimmed text of the
    selected element, the content of a [meta] element whose name holds
    "price", the first number of a body element with a keyword or a
    euro sign. If it is the Structured-Data strategy, the price is
    [Number(p)] for a truthy price field [p] of the structured data,
    not passed through the normalizer. *)
Theorem price_provenance :
  forall (v : Visit) (coin : Coin) (x : number),
    price_eur (scrape v coin) = Some x ->
    exists s,
      In (s, Some x) (calls (iteration v coin))
      /\ attempt (page v) coin s = Some x
      /\ match s with
         | JsonLd =>
             exists data,
               ld_json (page v) = Resolves data /\ coerced_from data x
         | _ =>
             isFinite x = true /\ normalized x
             /\ exists txt,
                  extracted_by (page v) coin s txt
                  /\ normalizeNumberString (Some txt) = Some x
         end.
Proof.
  intros v coin x Hx.
  destruct (iteration_spec v coin) as (Hc & Hp & _).
  change (price (iteration v coin) = Some x) in Hx.
  rewrite Hp in Hx.
  rewrite Hc in Hx |- *.
  destruct (found_until_found _ _ Hx) as (s & Hin & Hin').
  exists s. split; [exact Hin|].
  apply in_map_iff in Hin'. destruct Hin' as (s' & Heq & _).
  injection Heq as -> Ha. split; [exact Ha|].
  assert (Hnorm : forall txt,
             normalizeNumberString (Some txt) = Some x ->
             isFinite x = true /\ normalized x).
  { intros txt Ht. split; [exact (normalizeNumberString_finite _ _ Ht)|].
    now exists txt. }
  destruct s; simpl in Ha.
  - destruct (trySelector_inv _ _ _ Ha) as (el & Hq & Hn).
    destruct (Hnorm _ Hn) as [Hf Hz]. repeat split; auto.
    eexists. split; [|exact Hn]. exists el. auto.
  - exact (tryJSONLD_inv _ _ Ha).
  - destruct (tryMeta_inv _ _ Ha)
      as (ms & m & nm & content & Hm & Hin' & Hnm & Hct & Hinc & Hn).
    destruct (Hnorm _ Hn) as [Hf Hz]. repeat split; auto.
    exists content. split; [|exact Hn]. exists ms, m, nm. auto.
  - destruct (tryHeuristic_inv _ _ Ha)
      as (els & el & num & Hb & Hin' & Hfn & Hn & Hk).
    destruct (Hnorm _ Hn) as [Hf Hz]. repeat split; auto.
    exists num. split; [|exact Hn]. exists els, el.
    repeat split; auto. destruct Hk as [Hk|[Hk _]]; auto.
Qed.

Lemma price_provenance_witness :
  exists s,
    In (s, Some n1050)
       (calls (iteration (loaded (with_body [text_element ANKAUFSPREIS]
                                            blank_page)) coin_plain))
    /\ attempt (page (loaded (with_body [text_element ANKAUFSPREIS]
                                        blank_page))) coin_plain s
       = Some n1050
    /\ match s with
       | JsonLd =>
           exists data,
             ld_json (page (loaded (with_body [text_element ANKAUFSPREIS]
                                              blank_page))) = Resolves data
             /\ coerced_from data n1050
       | _ =>
           isFinite n1050 = true /\ normalized n1050
           /\ exists txt,
                extracted_by
                  (page (loaded (with_body [text_element ANKAUFSPREIS]
                                           blank_page))) coin_plain s txt
                /\ normalizeNumberString (Some txt) = Some n1050
       end.
Proof.
  apply (price_provenance
           (loaded (with_body [text_element ANKAUFSPREIS] blank_page))
           coin_plain n1050).
  vm_compute. reflexivity.
Defined.
